(** * A shallow embedding of [router.js]

    The router of deno-helpers keeps, per HTTP method, an insertion-ordered
    [Map] from pathname templates to handlers, and resolves a request by
    walking the method's map in order.  This file embeds the class [Router]
    of [src/router.js] and proves properties of registration and dispatch.

    What the class takes from its platform ([URLPattern], [JSON.parse],
    [Deno.open]) is not code of the repository: it is an interface, the class
    [Host] below, and every theorem holds for every host. *)

From Stdlib Require Import List String Ascii ZArith Bool Lia.
Import ListNotations.

Local Open Scope string_scope.
Local Open Scope Z_scope.

Set Warnings "-register-all".

(** ** JavaScript values, completions and the ordered [Map] *)

Module JS.

(** The values a caller may hand to the router where it expects a string or
    a function, and the values [JSON.parse] produces.  Numbers are the
    integers; nothing below computes with them. *)
Inductive JSValue : Type :=
| VUndefined
| VNull
| VBool (b : bool)
| VNumber (n : Z)
| VString (s : string)
| VArray (items : list JSValue)
| VObject (fields : list (string * JSValue)).

Definition typeof (v : JSValue) : string :=
  match v with
  | VUndefined => "undefined"
  | VBool _ => "boolean"
  | VNumber _ => "number"
  | VString _ => "string"
  | VNull | VArray _ | VObject _ => "object"
  end.

(** A thrown value: the error's constructor name and its message. *)
Inductive Thrown : Type :=
| JSError (name message : string).

(** How an evaluation ends: with a value, or by throwing.  An [async]
    function that rejects is a [Throw] at the [await] of its caller. *)
Inductive Completion (A : Type) : Type :=
| Normal (a : A)
| Throw (e : Thrown).

Arguments Normal {A} a.
Arguments Throw {A} e.

Definition bind {A B} (c : Completion A) (k : A -> Completion B)
  : Completion B :=
  match c with
  | Normal a => k a
  | Throw e => Throw e
  end.

(** [try { c } catch (_) { h _ }] *)
Definition try_catch {A} (c : Completion A) (h : Thrown -> Completion A)
  : Completion A :=
  match c with
  | Normal a => Normal a
  | Throw e => h e
  end.

(** An object used as a dictionary: its own string-keyed properties, in
    insertion order. *)
Definition Dict (V : Type) : Type := list (string * V).

Fixpoint Dict_get {V} (o : Dict V) (k : string) : option V :=
  match o with
  | [] => None
  | (k', v) :: rest => if String.eqb k' k then Some v else Dict_get rest k
  end.

(** [Object.keys(o)]; [o] is [None] when the expression is [undefined],
    and then [Object.keys] throws. *)
Definition Object_keys {V} (o : option (Dict V)) : Completion (list string) :=
  match o with
  | Some d => Normal (map fst d)
  | None =>
      Throw (JSError "TypeError" "Cannot convert undefined or null to object")
  end.

(** The built-in [Map] with string keys: entries in insertion order;
    [set] on a key already present overwrites the value where it stands,
    [set] on a new key appends. *)
Definition Map (V : Type) : Type := list (string * V).

Fixpoint Map_get {V} (m : Map V) (k : string) : option V :=
  match m with
  | [] => None
  | (k', v) :: rest => if String.eqb k' k then Some v else Map_get rest k
  end.

Definition Map_has {V} (m : Map V) (k : string) : bool :=
  match Map_get m k with
  | Some _ => true
  | None => false
  end.

Fixpoint Map_set {V} (m : Map V) (k : string) (v : V) : Map V :=
  match m with
  | [] => [(k, v)]
  | (k', v') :: rest =>
      if String.eqb k' k then (k, v) :: rest
      else (k', v') :: Map_set rest k v
  end.

Definition Map_keys {V} (m : Map V) : list string := map fst m.

(** [s.endsWith(suffix)] *)
Definition String_endsWith (s suffix : string) : bool :=
  let n := String.length s in
  let m := String.length suffix in
  if Nat.leb m n then String.eqb (substring (n - m) m s) suffix else false.

End JS.

Export JS.

Notation "x <- c ;; k" := (bind c (fun x => k))
  (at level 61, c at next level, right associativity).

(** ** Requests, responses and the host *)

Module Web.

(** A [Request], as far as the router reads it.  The body is a stream that
    can be read once: [req_body] is its text ([None] for a request without
    body) and [req_bodyUsed] tells whether it has been read. *)
Record Request : Type := {
  req_method : string;
  req_url : string;
  req_body : option string;
  req_bodyUsed : bool
}.

(** [await req.text()]: the text and the request afterwards. *)
Definition Request_text (req : Request) : Completion string * Request :=
  match req_body req with
  | None => (Normal EmptyString, req)
  | Some s =>
      if req_bodyUsed req
      then (Throw (JSError "TypeError" "Body already consumed"), req)
      else (Normal s,
            {| req_method := req_method req;
               req_url := req_url req;
               req_body := req_body req;
               req_bodyUsed := true |})
  end.

Inductive BodyInit : Type :=
| BodyNull
| BodyText (s : string)
| BodyStream (bytes : list Byte.byte).

(** A [Response], by the arguments of its constructor: the body, the status
    and the headers the code supplies. *)
Record Response : Type := {
  res_body : BodyInit;
  res_status : Z;
  res_headers : list (string * string)
}.

(** [new Response(body, { status, headers })] *)
Definition new_Response (b : BodyInit) (status : option Z)
    (headers : list (string * string)) : Response :=
  {| res_body := b;
     res_status := match status with Some s => s | None => 200 end;
     res_headers := headers |}.

(** The groups of a component of a match: each name with the text that it
    matched, or with [undefined] ([None]) when the group took no part in the
    match. *)
Definition Groups : Type := Dict (option string).

Record URLPatternComponentResult : Type := {
  comp_input : string;
  comp_groups : Groups
}.

(** The two members of a [URLPatternResult] that the router reads. *)
Record URLPatternResult : Type := {
  result_pathname : URLPatternComponentResult;
  result_search : URLPatternComponentResult
}.

Record FsFile : Type := {
  readable : list Byte.byte
}.

(** The platform under the router.
    - [new_URLPattern pathname] is [new URLPattern({ pathname })], which
      throws on a template it cannot parse;
    - [URLPattern_exec] is [exec];
    - [JSON_parse] is [JSON.parse], which throws on text that is not JSON;
    - [Deno_open path] is [await Deno.open(path, { read: true })]. *)
Class Host : Type := {
  URLPattern : Type;
  new_URLPattern : string -> Completion URLPattern;
  URLPattern_exec : URLPattern -> string -> option URLPatternResult;
  JSON_parse : string -> Completion JSValue;
  Deno_open : string -> Completion FsFile
}.

(** [url.test(input)]: by the URL Pattern standard, whether [exec] finds a
    result. *)
Definition URLPattern_test `{Host} (u : URLPattern) (input : string) : bool :=
  match URLPattern_exec u input with
  | Some _ => true
  | None => false
  end.

End Web.

Export Web.

(** ** The class [Router] *)

Module Router.

(** [params]: an object with up to two members. *)
Record Params : Type := {
  params_pathname : option Groups;
  params_search : option Groups
}.

(** The argument of a handler, [{ req, params, body }]. *)
Record Ctx : Type := {
  ctx_req : Request;
  ctx_params : Params;
  ctx_body : JSValue
}.

(** What is stored as a handler.  Registration takes any value; a value
    that is not a function throws when dispatch calls it.  A function
    returns a response or throws (an [async] one: resolves or rejects). *)
Inductive Handler : Type :=
| Callable (f : Ctx -> Completion Response)
| NotCallable (v : JSValue).

(** [handler(ctx)] *)
Definition call (handler : Handler) (ctx : Ctx) : Completion Response :=
  match handler with
  | Callable f => f ctx
  | NotCallable _ => Throw (JSError "TypeError" "handler is not a function")
  end.

(** The private field [#routes]. *)
Record Router : Type := {
  routes : Map (Map Handler)
}.

Definition supported_methods : list string :=
  ["GET"; "POST"; "PATCH"; "DELETE"].

(** [new Router()] *)
Definition new_Router : Router :=
  {| routes := [("GET", []); ("POST", []); ("PATCH", []); ("DELETE", [])] |}.

(** [#add(method, pathname, handler)]: the completion and the router
    afterwards.  The guard [typeof pathname !== "string" || pathname === ...]
    lets through the strings that are not empty.
    [this.#routes.get(method)?.set(pathname, handler)] writes
    into the inner map that the outer one holds, so the outer entry of
    [method] is the inner map after the [set]; when the outer map has no
    such method, [?.] skips the call. *)
Definition add (this : Router) (method : string) (pathname : JSValue)
    (handler : Handler) : Completion unit * Router :=
  match pathname with
  | VString s =>
      if String.eqb s EmptyString
      then (Throw (JSError "Error" "Invalid pathname"), this)
      else
        match Map_get (routes this) method with
        | Some inner =>
            (Normal tt,
             {| routes :=
                  Map_set (routes this) method (Map_set inner s handler) |})
        | None => (Normal tt, this)
        end
  | _ => (Throw (JSError "Error" "Invalid pathname"), this)
  end.

Definition get (this : Router) (pathname : JSValue) (handler : Handler) :=
  add this "GET" pathname handler.

Definition post (this : Router) (pathname : JSValue) (handler : Handler) :=
  add this "POST" pathname handler.

Definition patch (this : Router) (pathname : JSValue) (handler : Handler) :=
  add this "PATCH" pathname handler.

Definition delete (this : Router) (pathname : JSValue) (handler : Handler) :=
  add this "DELETE" pathname handler.

Section WithHost.

Context `{Host}.

(** [#parseParams(url, reqUrl)] *)
Definition parseParams (url : URLPattern) (reqUrl : string)
  : Completion Params :=
  let pathname :=
    option_map (fun r => comp_groups (result_pathname r))
               (URLPattern_exec url reqUrl) in
  let search :=
    option_map (fun r => comp_groups (result_search r))
               (URLPattern_exec url reqUrl) in
  let params := {| params_pathname := None; params_search := None |} in
  kp <- Object_keys pathname ;;
  let params :=
    if Nat.eqb (List.length kp) 0 then params
    else {| params_pathname := pathname;
            params_search := params_search params |} in
  ks <- Object_keys search ;;
  let params :=
    if Nat.eqb (List.length ks) 0 then params
    else {| params_pathname := params_pathname params;
            params_search := search |} in
  Normal params.

(** [#parseBody(req)]: the completion and the request afterwards. *)
Definition parseBody (req : Request) : Completion JSValue * Request :=
  let (text, req') := Request_text req in
  (try_catch (t <- text ;; JSON_parse t) (fun _ => Normal VNull), req').

(** The handler that [static] registers. *)
Definition static_handler (foldername : string) : Handler :=
  Callable (fun ctx =>
    try_catch
      (pathname <-
         match params_pathname (ctx_params ctx) with
         | Some g => Normal g
         | None =>
             Throw (JSError "TypeError"
                      "Cannot read properties of undefined")
         end ;;
       let path :=
         match Dict_get pathname "path" with
         | Some value => value
         | None => None
         end in
       file <- Deno_open ("./" ++ foldername ++ "/" ++
                          match path with
                          | Some p => p
                          | None => "undefined"
                          end) ;;
       let readableStream := readable file in
       let headers : list (string * string) := [] in
       js <- match path with
             | Some p => Normal (String_endsWith p ".js")
             | None =>
                 Throw (JSError "TypeError"
                          "Cannot read properties of undefined")
             end ;;
       let headers :=
         if js
         then (headers ++ [("content-type", "text/javascript")])%list
         else headers in
       Normal (new_Response (BodyStream readableStream) None headers))
      (fun _error =>
         Normal (new_Response (BodyText "Not Found") (Some 404) []))).

(** [static(pathname = "/static", foldername = "static")]; [None] is an
    argument left out. *)
Definition static (this : Router) (pathname foldername : option string)
  : Completion unit * Router :=
  let pathname :=
    match pathname with Some p => p | None => "/static" end in
  let foldername :=
    match foldername with Some f => f | None => "static" end in
  add this "GET" (VString (pathname ++ "/:path*"))
      (static_handler foldername).

(** The [for ... of] loop of [route] over the entries still to visit,
    with the request (its body read or not) and [status] as they stand. *)
Fixpoint route_entries (entries : Map Handler) (req : Request)
    (status : Z) : Completion Response :=
  match entries with
  | [] => Normal (new_Response BodyNull (Some status) [])
  | (pathname, handler) :: rest =>
      url <- new_URLPattern pathname ;;
      if URLPattern_test url (req_url req) then
        params <- parseParams url (req_url req) ;;
        let (body, req') := parseBody req in
        body <- body ;;
        match call handler {| ctx_req := req';
                              ctx_params := params;
                              ctx_body := body |} with
        | Normal response => Normal response
        | Throw _ => route_entries rest req' 500
        end
      else route_entries rest req status
  end.

(** [route(req)] *)
Definition route (this : Router) (req : Request) : Completion Response :=
  let status := 405 in
  if Map_has (routes this) (req_method req) then
    let status := 404 in
    match Map_get (routes this) (req_method req) with
    | Some entries => route_entries entries req status
    | None => Throw (JSError "TypeError" "undefined is not iterable")
    end
  else Normal (new_Response BodyNull (Some status) []).

End WithHost.

End Router.

Export Router.

(** ** Vocabulary of the statements *)

Module Dispatch.

(** The router keeps the four method keys it is constructed with. *)
Definition well_formed (this : Router) : Prop :=
  Map_keys (routes this) = supported_methods.

(** [new Response(null, { status })], the last line of [route]. *)
Definition status_only (status : Z) : Response :=
  new_Response BodyNull (Some status) [].

(** A member of [params]: the groups of a component, left out when the
    object has no key. *)
Definition present (groups : Groups) : option Groups :=
  match groups with
  | [] => None
  | _ :: _ => Some groups
  end.

(** The text of the body of a request; a request without body reads as
    the empty text. *)
Definition body_text (req : Request) : string :=
  match req_body req with
  | Some text => text
  | None => EmptyString
  end.

(** The request once its body has been asked for. *)
Definition after_read (req : Request) : Request :=
  snd (Request_text req).

Section WithHost.

Context `{Host}.

(** What one turn of the loop of [route] learns about a template: the
    construction of its [URLPattern], then [url.test(req.url)]. *)
Definition pattern_test (pathname : string) (input : string)
  : Completion bool :=
  url <- new_URLPattern pathname ;;
  Normal (URLPattern_test url input).

(** The object [{ req, params, body }] that [route] builds for a handler
    whose pattern [url] has matched. *)
Definition handler_context (url : URLPattern) (req : Request)
  : Completion Ctx :=
  params <- parseParams url (req_url req) ;;
  body <- fst (parseBody req) ;;
  Normal {| ctx_req := snd (parseBody req);
            ctx_params := params;
            ctx_body := body |}.

(** An entry that the loop passes without calling its handler. *)
Definition skipped (req : Request) (entry : string * Handler) : Prop :=
  pattern_test (fst entry) (req_url req) = Normal false.

(** An entry whose pattern matches and whose handler throws. *)
Definition failed (req : Request) (entry : string * Handler) : Prop :=
  exists url ctx e,
    new_URLPattern (fst entry) = Normal url /\
    URLPattern_test url (req_url req) = true /\
    handler_context url req = Normal ctx /\
    call (snd entry) ctx = Throw e.

(** A template that the [URLPattern] constructor accepts. *)
Definition compiles (entry : string * Handler) : Prop :=
  exists url, new_URLPattern (fst entry) = Normal url.

End WithHost.

End Dispatch.

Export Dispatch.

(** ** A host given by tables

    The scenarios below (the tests at the end of [router.js] among them) fix
    the answers of the platform on the few inputs they use. *)

Module Scripted.

(** The answers of a platform: the templates that [new URLPattern] rejects;
    the result of [exec] for a template and an input, where there is one;
    the texts that [JSON.parse] accepts, with their values; the files that
    [Deno.open] opens, with their bytes. *)
Record Script : Type := {
  rejected : list string;
  results : list (string * string * URLPatternResult);
  json : list (string * JSValue);
  files : list (string * list Byte.byte)
}.

Fixpoint lookup_result (table : list (string * string * URLPatternResult))
    (pathname input : string) : option URLPatternResult :=
  match table with
  | [] => None
  | (p, i, r) :: rest =>
      if String.eqb p pathname && String.eqb i input then Some r
      else lookup_result rest pathname input
  end.

Definition host (s : Script) : Host :=
  {| URLPattern := string;
     new_URLPattern pathname :=
       if existsb (String.eqb pathname) (rejected s)
       then Throw (JSError "TypeError" "Invalid pathname pattern")
       else Normal pathname;
     URLPattern_exec url input := lookup_result (results s) url input;
     JSON_parse text :=
       match Dict_get (json s) text with
       | Some v => Normal v
       | None => Throw (JSError "SyntaxError" "Unexpected token")
       end;
     Deno_open path :=
       match Dict_get (files s) path with
       | Some bytes => Normal {| readable := bytes |}
       | None => Throw (JSError "NotFound" "No such file or directory")
       end |}.

(** A result of [exec], by the input and the groups of its two
    components. *)
Definition match_result (pathname : string) (pathname_groups : Groups)
    (search : string) (search_groups : Groups) : URLPatternResult :=
  {| result_pathname :=
       {| comp_input := pathname; comp_groups := pathname_groups |};
     result_search :=
       {| comp_input := search; comp_groups := search_groups |} |}.

(** A match of an input without query string against a pattern that was
    given by its pathname alone: the search component of such a pattern is
    the wildcard, and the platform reports what a wildcard matched as the
    group named [0]. *)
Definition pathname_match (input : string) (groups : Groups)
  : URLPatternResult :=
  match_result input groups EmptyString [("0", Some EmptyString)].

Definition quote : string := String (ascii_of_nat 34) EmptyString.

Definition GET (url : string) : Request :=
  {| req_method := "GET"; req_url := url;
     req_body := None; req_bodyUsed := false |}.

Definition request (method url body : string) : Request :=
  {| req_method := method; req_url := url;
     req_body := Some body; req_bodyUsed := false |}.

(** The router after a registration that does not throw. *)
Definition registered (r : Completion unit * Router) : Router := snd r.

Definition text_response (s : string) : Response :=
  new_Response (BodyText s) None [].

(** The text [{"test":"TEST"}]. *)
Definition json_test : string :=
  "{" ++ quote ++ "test" ++ quote ++ ":" ++ quote ++ "TEST" ++ quote ++ "}".

(** The platform of the tests of [router.js]. *)
Definition deno_tests : Script :=
  {| rejected := ["/("];
     results :=
       [("/test/:id", "http://localhost/test/123",
         pathname_match "/test/123" [("id", Some "123")]);
        ("/test", "http://localhost/test", pathname_match "/test" []);
        ("/:any", "http://localhost/test",
         pathname_match "/test" [("any", Some "test")]);
        ("/static/:path*", "http://localhost/static/app.js",
         pathname_match "/static/app.js" [("path", Some "app.js")]);
        ("/static/:path*", "http://localhost/static/missing.css",
         pathname_match "/static/missing.css" [("path", Some "missing.css")])];
     json :=
       [(json_test, VObject [("test", VString "TEST")])];
     files := [("./static/app.js", [Byte.x2f; Byte.x2f])] |}.

(** Handlers of the scenarios. *)
Definition respond (s : string) : Handler :=
  Callable (fun _ => Normal (text_response s)).

Definition throwing : Handler :=
  Callable (fun _ => Throw (JSError "Error" "TEST")).

(** [({ params }) => new Response(`test, ${params.pathname.id}!`)] *)
Definition greet_id : Handler :=
  Callable (fun ctx =>
    pathname <-
      match params_pathname (ctx_params ctx) with
      | Some g => Normal g
      | None =>
          Throw (JSError "TypeError" "Cannot read properties of undefined")
      end ;;
    Normal (text_response
              ("test, " ++
               match Dict_get pathname "id" with
               | Some (Some id) => id
               | _ => "undefined"
               end ++ "!"))).

(** [async ({ body }) => new Response(`test, ${body.test}!`)], for a body
    whose member [test], if any, is a string. *)
Definition greet_body : Handler :=
  Callable (fun ctx =>
    match ctx_body ctx with
    | VNull | VUndefined =>
        Throw (JSError "TypeError" "Cannot read properties of null")
    | VObject fields =>
        Normal (text_response
                  ("test, " ++
                   match Dict_get fields "test" with
                   | Some (VString s) => s
                   | _ => "undefined"
                   end ++ "!"))
    | _ => Normal (text_response "test, undefined!")
    end).

(** Reports the body it was given. *)
Definition report_body : Handler :=
  Callable (fun ctx =>
    Normal (text_response
              match ctx_body ctx with
              | VNull => "null"
              | VObject _ => "object"
              | _ => "other"
              end)).

(** [route] on the platform of the tests. *)
Definition run : Router -> Request -> Completion Response :=
  route (H := host deno_tests).

Definition respond_null : Handler :=
  Callable (fun _ => Normal (new_Response BodyNull None [])).

(** Three GET routes; the second and the third both match [/test]. *)
Definition three_routes : Router :=
  registered (get (registered (get (registered (get new_Router
    (VString "/test/:id") greet_id))
    (VString "/test") (respond "first")))
    (VString "/:any") (respond "second")).

(** A handler that throws, then a pattern that does not match, then one that
    matches. *)
Definition failing_then_fallback : Router :=
  registered (get (registered (get (registered (get new_Router
    (VString "/test") throwing))
    (VString "/test/:id") greet_id))
    (VString "/:any") (respond "second")).

(** Two handlers that throw on the same path. *)
Definition failing_twice : Router :=
  registered (get (registered (get new_Router
    (VString "/test") throwing))
    (VString "/:any") (NotCallable (VNumber 42))).

(** Two POST routes and one GET route. *)
Definition two_posts : Router :=
  registered (get (registered (post (registered (post new_Router
    (VString "/a") (respond "a")))
    (VString "/b") (respond "b")))
    (VString "/a") (respond "get a")).

(** A handler that throws, then one that reports its body, on the same
    path. *)
Definition failing_then_report : Router :=
  registered (post (registered (post new_Router
    (VString "/test") throwing))
    (VString "/:any") report_body).

End Scripted.

Import Scripted.

(** ** Programs that register routes *)

Module Registration.

(** A call of one of the public methods that register a route. *)
Inductive Call : Type :=
| CallGet (pathname : JSValue) (handler : Handler)
| CallPost (pathname : JSValue) (handler : Handler)
| CallPatch (pathname : JSValue) (handler : Handler)
| CallDelete (pathname : JSValue) (handler : Handler)
| CallStatic (pathname foldername : option string).

(** What the maps of a router are expected to look like: the outer map has
    the four method keys, and no inner map holds a pattern twice or holds
    the empty pattern. *)
Definition tidy (this : Router) : Prop :=
  Map_keys (routes this) = supported_methods /\
  forall method entries,
    Map_get (routes this) method = Some entries ->
    NoDup (Map_keys entries) /\ ~ In EmptyString (Map_keys entries).

Section WithHost.

Context `{Host}.

Definition perform (this : Router) (c : Call) : Completion unit * Router :=
  match c with
  | CallGet pathname handler => get this pathname handler
  | CallPost pathname handler => post this pathname handler
  | CallPatch pathname handler => patch this pathname handler
  | CallDelete pathname handler => delete this pathname handler
  | CallStatic pathname foldername => static this pathname foldername
  end.

(** The router after a sequence of calls, a call that throws being caught
    by the caller: the routers that a program can build from [new Router()]
    are the [perform_all new_Router calls]. *)
Fixpoint perform_all (this : Router) (calls : list Call) : Router :=
  match calls with
  | [] => this
  | c :: rest => perform_all (snd (perform this c)) rest
  end.

(** What the handler of [static] answers for a captured [path]. *)
Definition static_response (foldername path : string) : Response :=
  match Deno_open ("./" ++ foldername ++ "/" ++ path) with
  | Normal file =>
      {| res_body := BodyStream (readable file);
         res_status := 200;
         res_headers :=
           if String_endsWith path ".js"
           then [("content-type", "text/javascript")]
           else [] |}
  | Throw _ =>
      {| res_body := BodyText "Not Found";
         res_status := 404;
         res_headers := [] |}
  end.

End WithHost.

End Registration.

Export Registration.

(** * Properties *)

Local Open Scope list_scope.

(** ** The ordered map *)

Module MapFacts.

Section Facts.

Context {V : Type}.
Implicit Types (m : Map V) (k : string) (v : V).

Lemma Map_get_set_same m k v : Map_get (Map_set m k v) k = Some v.
Proof.
  induction m as [|[k' v'] rest IH]; simpl.
  - now rewrite String.eqb_refl.
  - destruct (String.eqb k' k) eqn:E; simpl.
    + now rewrite String.eqb_refl.
    + now rewrite E.
Qed.

Lemma Map_get_set_other m k k' v :
  k' <> k -> Map_get (Map_set m k v) k' = Map_get m k'.
Proof.
  intros Hne.
  induction m as [|[k0 v0] rest IH]; simpl.
  - destruct (String.eqb k k') eqn:E; [|reflexivity].
    apply String.eqb_eq in E. congruence.
  - destruct (String.eqb k0 k) eqn:E; simpl.
    + apply String.eqb_eq in E. subst k0.
      destruct (String.eqb k k') eqn:E'; [|reflexivity].
      apply String.eqb_eq in E'. congruence.
    + now rewrite IH.
Qed.

Lemma Map_get_In_keys m k v : Map_get m k = Some v -> In k (Map_keys m).
Proof.
  induction m as [|[k' v'] rest IH]; simpl; [discriminate|].
  destruct (String.eqb k' k) eqn:E.
  - apply String.eqb_eq in E. now left.
  - intros Hget. right. now apply IH.
Qed.

Lemma In_keys_Map_get m k : In k (Map_keys m) -> exists v, Map_get m k = Some v.
Proof.
  induction m as [|[k' v'] rest IH]; simpl; [tauto|].
  intros [->|Hin].
  - rewrite String.eqb_refl. eauto.
  - destruct (String.eqb k' k); eauto.
Qed.

Lemma Map_has_In_keys m k : Map_has m k = true <-> In k (Map_keys m).
Proof.
  unfold Map_has. split.
  - destruct (Map_get m k) eqn:E; [|discriminate].
    intros _. eapply Map_get_In_keys; eauto.
  - intros Hin. apply In_keys_Map_get in Hin as [v ->]. reflexivity.
Qed.

(** [set] on a key that is present keeps every entry where it is and
    changes the value of that key only. *)
Lemma Map_set_present pre post k old v :
  ~ In k (Map_keys pre) ->
  Map_set (pre ++ (k, old) :: post) k v = pre ++ (k, v) :: post.
Proof.
  induction pre as [|[k' v'] pre IH]; simpl; intros Hnin.
  - now rewrite String.eqb_refl.
  - destruct (String.eqb k' k) eqn:E.
    + apply String.eqb_eq in E. tauto.
    + rewrite IH; tauto.
Qed.

(** [set] on a new key appends the entry. *)
Lemma Map_set_absent m k v :
  ~ In k (Map_keys m) -> Map_set m k v = m ++ [(k, v)].
Proof.
  induction m as [|[k' v'] rest IH]; simpl; intros Hnin; [reflexivity|].
  destruct (String.eqb k' k) eqn:E.
  - apply String.eqb_eq in E. tauto.
  - rewrite IH; tauto.
Qed.

Lemma Map_keys_set_present m k v :
  In k (Map_keys m) -> Map_keys (Map_set m k v) = Map_keys m.
Proof.
  induction m as [|[k' v'] rest IH]; simpl; [tauto|].
  intros Hin. destruct (String.eqb k' k) eqn:E; simpl.
  - apply String.eqb_eq in E. now subst.
  - f_equal. apply IH. destruct Hin as [->|Hin]; [|assumption].
    now rewrite String.eqb_refl in E.
Qed.

Lemma Map_keys_set_absent m k v :
  ~ In k (Map_keys m) -> Map_keys (Map_set m k v) = Map_keys m ++ [k].
Proof.
  intros Hnin. rewrite Map_set_absent by assumption.
  unfold Map_keys. now rewrite map_app.
Qed.

(** The first entry of a key is the one [get] finds. *)
Lemma Map_get_split m k v :
  Map_get m k = Some v ->
  exists pre post, m = pre ++ (k, v) :: post /\ ~ In k (Map_keys pre).
Proof.
  induction m as [|[k' v'] rest IH]; simpl; [discriminate|].
  destruct (String.eqb k' k) eqn:E.
  - apply String.eqb_eq in E. subst k'. intros [= ->].
    exists [], rest. simpl. tauto.
  - intros Hget. destruct (IH Hget) as (pre & post & -> & Hnin).
    exists ((k', v') :: pre), post. split; [reflexivity|].
    simpl. intros [->|Hin]; [|tauto].
    now rewrite String.eqb_refl in E.
Qed.

Lemma Map_get_first pre post k v :
  ~ In k (Map_keys pre) -> Map_get (pre ++ (k, v) :: post) k = Some v.
Proof.
  induction pre as [|[k' v'] pre IH]; simpl; intros Hnin.
  - now rewrite String.eqb_refl.
  - destruct (String.eqb k' k) eqn:E.
    + apply String.eqb_eq in E. tauto.
    + apply IH. tauto.
Qed.

End Facts.

(** Writing to the value of one key of a map of maps leaves the keys of the
    outer map as they are. *)
Lemma Map_keys_set_get {V} (m : Map V) k v v' :
  Map_get m k = Some v -> Map_keys (Map_set m k v') = Map_keys m.
Proof.
  intros Hget. apply Map_keys_set_present. eapply Map_get_In_keys; eauto.
Qed.

End MapFacts.

Import MapFacts.

(** ** Registration *)

Module AddFacts.

Lemma add_throws_unchanged this method pathname handler e :
  fst (add this method pathname handler) = Throw e ->
  add this method pathname handler =
    (Throw (JSError "Error" "Invalid pathname"), this).
Proof.
  unfold add.
  destruct pathname; try reflexivity.
  destruct (String.eqb s EmptyString); [reflexivity|].
  destruct (Map_get (routes this) method); simpl; discriminate.
Qed.

Lemma add_accepts this method s handler :
  s <> EmptyString ->
  add this method (VString s) handler =
    (Normal tt,
     match Map_get (routes this) method with
     | Some inner =>
         {| routes := Map_set (routes this) method (Map_set inner s handler) |}
     | None => this
     end).
Proof.
  intros Hs. unfold add.
  destruct (String.eqb s EmptyString) eqn:E.
  - apply String.eqb_eq in E. contradiction.
  - destruct (Map_get (routes this) method); reflexivity.
Qed.

(** A registration for [method] leaves the map of every other method as it
    is, whatever it is given. *)
Lemma add_other_methods this method pathname handler method' :
  method' <> method ->
  Map_get (routes (snd (add this method pathname handler))) method' =
  Map_get (routes this) method'.
Proof.
  intros Hne. unfold add.
  destruct pathname; try reflexivity.
  destruct (String.eqb s EmptyString); [reflexivity|].
  destruct (Map_get (routes this) method) eqn:E; [|reflexivity].
  simpl. now apply Map_get_set_other.
Qed.

Lemma add_well_formed this method pathname handler :
  well_formed this -> well_formed (snd (add this method pathname handler)).
Proof.
  unfold well_formed, add. intros Hwf.
  destruct pathname; try assumption.
  destruct (String.eqb s EmptyString); [assumption|].
  destruct (Map_get (routes this) method) eqn:E; [|assumption].
  simpl. erewrite Map_keys_set_get; eauto.
Qed.

Lemma new_Router_well_formed : well_formed new_Router.
Proof. reflexivity. Qed.

Lemma static_well_formed `{Host} this pathname foldername :
  well_formed this -> well_formed (snd (static this pathname foldername)).
Proof. apply add_well_formed. Qed.

Lemma well_formed_supported this method :
  well_formed this ->
  In method supported_methods ->
  exists entries, Map_get (routes this) method = Some entries.
Proof.
  unfold well_formed. intros Hwf Hin. rewrite <- Hwf in Hin.
  now apply In_keys_Map_get.
Qed.

Lemma well_formed_unsupported this method :
  well_formed this ->
  ~ In method supported_methods ->
  Map_has (routes this) method = false.
Proof.
  unfold well_formed. intros Hwf Hnin.
  destruct (Map_has (routes this) method) eqn:E; [|reflexivity].
  apply Map_has_In_keys in E. rewrite Hwf in E. contradiction.
Qed.

End AddFacts.

Import AddFacts.

(** ** Dispatch, one turn of the loop at a time *)

Module RouteFacts.

Lemma after_read_idempotent req : after_read (after_read req) = after_read req.
Proof.
  destruct req as [method url [text|] [|]]; reflexivity.
Qed.

Lemma after_read_url req : req_url (after_read req) = req_url req.
Proof.
  unfold after_read, Request_text.
  destruct (req_body req); [destruct (req_bodyUsed req)|]; reflexivity.
Qed.

Section WithHost.

Context `{Host}.

Lemma parseBody_after req : snd (parseBody req) = after_read req.
Proof.
  unfold parseBody, after_read. now destruct (Request_text req).
Qed.

(** [#parseBody] catches whatever goes wrong inside it. *)
Lemma parseBody_normal req : exists body, fst (parseBody req) = Normal body.
Proof.
  unfold parseBody. destruct (Request_text req) as [[text|e] req']; simpl.
  - destruct (JSON_parse text); simpl; eauto.
  - eauto.
Qed.

(** The value of [#parseBody], case by case. *)
Lemma parseBody_value req :
  fst (parseBody req) =
  Normal match fst (Request_text req) with
         | Normal text =>
             match JSON_parse text with
             | Normal v => v
             | Throw _ => VNull
             end
         | Throw _ => VNull
         end.
Proof.
  unfold parseBody. destruct (Request_text req) as [[text|e] req']; simpl.
  - now destruct (JSON_parse text).
  - reflexivity.
Qed.

Lemma parseParams_result url input result :
  URLPattern_exec url input = Some result ->
  parseParams url input =
  Normal {| params_pathname := present (comp_groups (result_pathname result));
            params_search := present (comp_groups (result_search result)) |}.
Proof.
  intros Hexec. unfold parseParams. rewrite Hexec. simpl.
  destruct (comp_groups (result_pathname result));
    destruct (comp_groups (result_search result)); reflexivity.
Qed.

Lemma test_exec url input :
  URLPattern_test url input = true ->
  exists result, URLPattern_exec url input = Some result.
Proof.
  unfold URLPattern_test.
  destruct (URLPattern_exec url input); [eauto|discriminate].
Qed.

(** Once a pattern has matched, building the handler's argument cannot
    throw. *)
Lemma handler_context_normal url req :
  URLPattern_test url (req_url req) = true ->
  exists ctx, handler_context url req = Normal ctx.
Proof.
  intros Htest. apply test_exec in Htest as [result Hexec].
  unfold handler_context.
  rewrite (parseParams_result _ _ _ Hexec). simpl.
  destruct (parseBody_normal req) as [body ->]. simpl. eauto.
Qed.

Lemma handler_context_req url req ctx :
  handler_context url req = Normal ctx -> ctx_req ctx = after_read req.
Proof.
  unfold handler_context.
  destruct (parseParams url (req_url req)); simpl; [|discriminate].
  destruct (fst (parseBody req)); simpl; [|discriminate].
  intros [= <-]. simpl. apply parseBody_after.
Qed.

Lemma handler_context_body url req ctx :
  handler_context url req = Normal ctx ->
  fst (parseBody req) = Normal (ctx_body ctx).
Proof.
  unfold handler_context.
  destruct (parseParams url (req_url req)); simpl; [|discriminate].
  destruct (fst (parseBody req)); simpl; [|discriminate].
  now intros [= <-].
Qed.

Lemma handler_context_params url req ctx :
  handler_context url req = Normal ctx ->
  parseParams url (req_url req) = Normal (ctx_params ctx).
Proof.
  unfold handler_context.
  destruct (parseParams url (req_url req)); simpl; [|discriminate].
  destruct (fst (parseBody req)); simpl; [|discriminate].
  now intros [= <-].
Qed.

(** A turn whose pattern matches: the handler is called on the context,
    its response ends the dispatch, its failure sets [status] to 500 and
    goes on with the entries that follow. *)
Lemma route_entries_match pathname handler rest req status url ctx :
  new_URLPattern pathname = Normal url ->
  URLPattern_test url (req_url req) = true ->
  handler_context url req = Normal ctx ->
  route_entries ((pathname, handler) :: rest) req status =
  match call handler ctx with
  | Normal response => Normal response
  | Throw _ => route_entries rest (ctx_req ctx) 500
  end.
Proof.
  intros Hnew Htest Hctx. simpl. rewrite Hnew. simpl. rewrite Htest.
  unfold handler_context in Hctx.
  destruct (parseParams url (req_url req)) as [params|]; simpl in *;
    [|discriminate].
  destruct (parseBody req) as [body req']; simpl in *.
  destruct body as [body|]; simpl in *; [|discriminate].
  injection Hctx as <-. reflexivity.
Qed.

(** A turn whose pattern does not match goes on with the entries that
    follow, [status] and request untouched. *)
Lemma route_entries_skip entry rest req status :
  skipped req entry ->
  route_entries (entry :: rest) req status = route_entries rest req status.
Proof.
  destruct entry as [pathname handler]. unfold skipped, pattern_test. simpl.
  destruct (new_URLPattern pathname) as [url|]; simpl; [|discriminate].
  now intros [= ->].
Qed.

Lemma route_entries_skip_all pre rest req status :
  Forall (skipped req) pre ->
  route_entries (pre ++ rest) req status = route_entries rest req status.
Proof.
  induction 1 as [|entry pre Hskip _ IH]; [reflexivity|].
  rewrite <- app_comm_cons, route_entries_skip by assumption. exact IH.
Qed.

Lemma route_entries_fail entry rest req status :
  failed req entry ->
  route_entries (entry :: rest) req status =
  route_entries rest (after_read req) 500.
Proof.
  destruct entry as [pathname handler].
  intros (url & ctx & e & Hnew & Htest & Hctx & Hcall).
  simpl in Hnew, Hcall.
  rewrite (route_entries_match _ _ _ _ _ _ _ Hnew Htest Hctx), Hcall.
  now rewrite (handler_context_req _ _ _ Hctx).
Qed.

(** With the body read and [status] at 500, entries that are skipped or
    fail change nothing. *)
Lemma route_entries_fail_all pre rest req :
  after_read req = req ->
  Forall (fun entry => skipped req entry \/ failed req entry) pre ->
  route_entries (pre ++ rest) req 500 = route_entries rest req 500.
Proof.
  intros Hread. induction 1 as [|entry pre [Hskip|Hfail] _ IH];
    [reflexivity| |]; rewrite <- app_comm_cons.
  - now rewrite route_entries_skip.
  - now rewrite route_entries_fail, Hread.
Qed.

Lemma route_supported this req entries :
  Map_get (routes this) (req_method req) = Some entries ->
  route this req = route_entries entries req 404.
Proof.
  intros Hget. unfold route, Map_has. now rewrite Hget.
Qed.

Lemma route_unsupported this req :
  Map_get (routes this) (req_method req) = None ->
  route this req = Normal (status_only 405).
Proof.
  intros Hget. unfold route, Map_has. now rewrite Hget.
Qed.

End WithHost.

End RouteFacts.

Import RouteFacts.

(** ** Dispatch *)

(** C1.  For a request whose method is supported, dispatch visits the
    patterns of the method in registration order; at the first pattern that
    matches, the handler is called, and when it completes normally its
    response is the result of the dispatch as it is.  No entry registered
    after it is visited: the loop gives that response whatever follows the
    entry, be it a template that cannot be parsed. *)
Theorem route_first_match `{Host} (this : Router) (req : Request)
    (pre post : Map Handler) (pathname : string) (handler : Handler)
    (url : URLPattern) :
  Map_get (routes this) (req_method req) =
    Some (pre ++ (pathname, handler) :: post) ->
  Forall (skipped req) pre ->
  new_URLPattern pathname = Normal url ->
  URLPattern_test url (req_url req) = true ->
  exists ctx,
    handler_context url req = Normal ctx /\
    forall response,
      call handler ctx = Normal response ->
      route this req = Normal response /\
      forall post',
        route_entries (pre ++ (pathname, handler) :: post') req 404 =
        Normal response.
Proof.
  intros Hget Hpre Hnew Htest.
  destruct (handler_context_normal url req Htest) as [ctx Hctx].
  exists ctx. split; [assumption|].
  intros response Hcall.
  assert (Hstop : forall post',
             route_entries (pre ++ (pathname, handler) :: post') req 404 =
             Normal response).
  { intros post'. rewrite route_entries_skip_all by assumption.
    now rewrite (route_entries_match _ _ _ _ _ _ _ Hnew Htest Hctx), Hcall. }
  split; [|exact Hstop].
  rewrite (route_supported _ _ _ Hget). apply Hstop.
Qed.

Lemma route_first_match_witness :
  route (H := host deno_tests) three_routes (GET "http://localhost/test") =
  Normal (text_response "first").
Proof.
  destruct (route_first_match (H := host deno_tests) three_routes
              (GET "http://localhost/test")
              [("/test/:id", greet_id)] [("/:any", respond "second")]
              "/test" (respond "first") "/test")
    as (ctx & _ & Hresponse).
  - reflexivity.
  - repeat constructor.
  - reflexivity.
  - reflexivity.
  - now apply Hresponse.
Defined.

(** C2.  When the handler of a matching pattern fails, dispatch does not
    return: it sets the status to 500 and goes on with the patterns
    registered after it, in order.  If none of them yields a response (each
    one does not match, or matches and fails too) the result is the bodyless
    response with status 500; if one of them matches and its handler returns
    a response, that response is the result instead. *)
Theorem route_handler_failure_continues `{Host} (this : Router)
    (req : Request) (pre post : Map Handler) (pathname : string)
    (handler : Handler) (url : URLPattern) :
  Map_get (routes this) (req_method req) =
    Some (pre ++ (pathname, handler) :: post) ->
  Forall (skipped req) pre ->
  new_URLPattern pathname = Normal url ->
  URLPattern_test url (req_url req) = true ->
  exists ctx,
    handler_context url req = Normal ctx /\
    forall e,
      call handler ctx = Throw e ->
      route this req = route_entries post (after_read req) 500 /\
      (Forall (fun entry => skipped (after_read req) entry \/
                            failed (after_read req) entry) post ->
       route this req = Normal (status_only 500)) /\
      (forall mid later pathname' handler' url' ctx' response,
          post = mid ++ (pathname', handler') :: later ->
          Forall (fun entry => skipped (after_read req) entry \/
                               failed (after_read req) entry) mid ->
          new_URLPattern pathname' = Normal url' ->
          URLPattern_test url' (req_url req) = true ->
          handler_context url' (after_read req) = Normal ctx' ->
          call handler' ctx' = Normal response ->
          route this req = Normal response).
Proof.
  intros Hget Hpre Hnew Htest.
  destruct (handler_context_normal url req Htest) as [ctx Hctx].
  exists ctx. split; [assumption|].
  intros e Hcall.
  assert (Hgo : route this req = route_entries post (after_read req) 500).
  { rewrite (route_supported _ _ _ Hget), route_entries_skip_all by assumption.
    rewrite (route_entries_match _ _ _ _ _ _ _ Hnew Htest Hctx), Hcall.
    now rewrite (handler_context_req _ _ _ Hctx). }
  split; [exact Hgo|]. split.
  - intros Hpost. rewrite Hgo.
    rewrite <- (app_nil_r post).
    rewrite route_entries_fail_all;
      [reflexivity|apply after_read_idempotent|assumption].
  - intros mid later pathname' handler' url' ctx' response
           -> Hmid Hnew' Htest' Hctx' Hcall'.
    rewrite Hgo.
    rewrite route_entries_fail_all;
      [|apply after_read_idempotent|assumption].
    rewrite <- after_read_url in Htest'.
    now rewrite (route_entries_match _ _ _ _ _ _ _ Hnew' Htest' Hctx'), Hcall'.
Qed.

Lemma route_handler_failure_continues_witness :
  route (H := host deno_tests) failing_then_fallback
        (GET "http://localhost/test") = Normal (text_response "second") /\
  route (H := host deno_tests) failing_twice
        (GET "http://localhost/test") = Normal (status_only 500).
Proof.
  split.
  - destruct (route_handler_failure_continues (H := host deno_tests)
                failing_then_fallback (GET "http://localhost/test")
                [] [("/test/:id", greet_id); ("/:any", respond "second")]
                "/test" throwing "/test")
      as (ctx & _ & Hfail);
      [reflexivity | constructor | reflexivity | reflexivity |].
    destruct (Hfail (JSError "Error" "TEST") eq_refl) as (_ & _ & Hlater).
    eapply (Hlater [("/test/:id", greet_id)] [] "/:any" (respond "second")
                   "/:any"); try reflexivity.
    constructor; [|constructor]. left. reflexivity.
  - destruct (route_handler_failure_continues (H := host deno_tests)
                failing_twice (GET "http://localhost/test")
                [] [("/:any", NotCallable (VNumber 42))]
                "/test" throwing "/test")
      as (ctx & _ & Hfail);
      [reflexivity | constructor | reflexivity | reflexivity |].
    destruct (Hfail (JSError "Error" "TEST") eq_refl) as (_ & Hnone & _).
    apply Hnone. constructor; [|constructor]. right.
    exists "/:any". eexists. eexists. repeat split; reflexivity.
Defined.

(** C3.  A request whose method is none of GET, POST, PATCH and DELETE gets
    the bodyless response with status 405, whatever its URL and whatever has
    been registered. *)
Theorem route_unsupported_method `{Host} (this : Router) (req : Request) :
  well_formed this ->
  ~ In (req_method req) supported_methods ->
  route this req = Normal (status_only 405).
Proof.
  intros Hwf Hnin. unfold route.
  now rewrite (well_formed_unsupported _ _ Hwf Hnin).
Qed.

Lemma route_unsupported_method_witness :
  route (H := host deno_tests)
        (registered (get new_Router (VString "/test") (respond "ok")))
        {| req_method := "TEST"; req_url := "http://localhost/test";
           req_body := None; req_bodyUsed := false |} =
  Normal {| res_body := BodyNull; res_status := 405; res_headers := [] |}.
Proof.
  apply (route_unsupported_method (H := host deno_tests)).
  - reflexivity.
  - simpl. intros [E|[E|[E|[E|[]]]]]; discriminate E.
Defined.

(** C4, as the code has it.  A request whose method is one of the four gets
    the response with empty body and status 404 when every pattern
    registered for that method is a template that [URLPattern] accepts and
    that does not match the URL; so does every such request when nothing is
    registered. *)
Theorem route_no_match `{Host} (this : Router) (req : Request) :
  well_formed this ->
  In (req_method req) supported_methods ->
  (forall entries,
      Map_get (routes this) (req_method req) = Some entries ->
      Forall (skipped req) entries) ->
  route this req = Normal (status_only 404).
Proof.
  intros Hwf Hin Hskip.
  destruct (well_formed_supported _ _ Hwf Hin) as [entries Hget].
  rewrite (route_supported _ _ _ Hget).
  rewrite <- (app_nil_r entries), route_entries_skip_all by auto.
  reflexivity.
Qed.

Lemma route_no_match_witness :
  route (H := host deno_tests)
        (registered (get new_Router (VString "/test") (respond "ok")))
        (GET "http://localhost/bar") =
  Normal {| res_body := BodyNull; res_status := 404; res_headers := [] |} /\
  route (H := host deno_tests) new_Router (GET "http://localhost/anything") =
  Normal {| res_body := BodyNull; res_status := 404; res_headers := [] |}.
Proof.
  split; apply (route_no_match (H := host deno_tests));
    try reflexivity; try (simpl; tauto).
  - intros entries [= <-]. repeat constructor.
  - intros entries [= <-]. constructor.
Defined.

(** C4, as the spec has it, fails: with the template [/(] registered for
    GET, which [URLPattern] rejects, no registered pattern matches the URL
    of a GET request, and the dispatch throws instead of answering 404. *)
Lemma route_no_match_but_throws :
  well_formed (registered (get new_Router (VString "/(") (respond "ok"))) /\
  In (req_method (GET "http://localhost/test")) supported_methods /\
  (forall entries pathname handler,
      Map_get (routes (registered (get new_Router (VString "/(")
                                       (respond "ok"))))
              (req_method (GET "http://localhost/test")) = Some entries ->
      In (pathname, handler) entries ->
      ~ exists url,
          new_URLPattern (Host := host deno_tests) pathname = Normal url /\
          URLPattern_test url (req_url (GET "http://localhost/test")) = true) /\
  route (H := host deno_tests)
        (registered (get new_Router (VString "/(") (respond "ok")))
        (GET "http://localhost/test") =
    Throw (JSError "TypeError" "Invalid pathname pattern") /\
  route (H := host deno_tests)
        (registered (get new_Router (VString "/(") (respond "ok")))
        (GET "http://localhost/test") <> Normal (status_only 404).
Proof.
  split; [reflexivity|]. split; [now left|]. split.
  - intros entries pathname handler [= <-] [[= <- <-]|[]] (url & Hnew & _).
    discriminate Hnew.
  - split; [reflexivity|discriminate].
Qed.

(** ** Registration *)

(** C5.  For every method and every handler, a registration whose pattern is
    not a string, or is the empty string, throws the error [Invalid pathname]
    and leaves the router as it was.  Nothing else is checked: every
    non-empty string is accepted as a pattern, whatever its syntax, and
    every value is accepted as a handler, function or not, and the entry is
    stored in the map of the method. *)
Theorem add_validates_pathname (this : Router) (method : string)
    (pathname : JSValue) (handler : Handler) :
  (typeof pathname <> "string"%string \/ pathname = VString EmptyString ->
   add this method pathname handler =
     (Throw (JSError "Error" "Invalid pathname"), this)) /\
  (forall s inner,
      pathname = VString s ->
      s <> EmptyString ->
      Map_get (routes this) method = Some inner ->
      exists this',
        add this method pathname handler = (Normal tt, this') /\
        Map_get (routes this') method = Some (Map_set inner s handler)).
Proof.
  split.
  - intros [Htype| ->]; [|reflexivity].
    destruct pathname; try reflexivity. now contradiction Htype.
  - intros s inner -> Hs Hget.
    rewrite (add_accepts _ _ _ _ Hs), Hget.
    eexists. split; [reflexivity|]. simpl. apply Map_get_set_same.
Qed.

Lemma add_validates_pathname_witness :
  (get new_Router (VString EmptyString) (respond "ok") =
     (Throw (JSError "Error" "Invalid pathname"), new_Router) /\
   post new_Router (VNumber 7) (respond "ok") =
     (Throw (JSError "Error" "Invalid pathname"), new_Router)) /\
  exists this',
    patch new_Router (VString "/(") (NotCallable VNull) = (Normal tt, this') /\
    Map_get (routes this') "PATCH" = Some [("/(", NotCallable VNull)].
Proof.
  split; [split|].
  - apply (add_validates_pathname new_Router "GET" (VString EmptyString)).
    now right.
  - apply (add_validates_pathname new_Router "POST" (VNumber 7)).
    left. discriminate.
  - apply (proj2 (add_validates_pathname new_Router "PATCH" (VString "/(")
                    (NotCallable VNull)) "/(" []);
      [reflexivity | discriminate | reflexivity].
Defined.

(** C10.  Registering, for a supported method, a pattern that the method's
    map already holds puts the new handler in the place of the old one: the
    entries before it and after it stay where they are.  And a registration
    for one method, of whatever pattern and handler, leaves the maps of the
    other methods as they are. *)
Theorem add_replaces_in_place (this : Router) (method : string) :
  (forall (pre post : Map Handler) (pathname : string) (old handler : Handler),
      Map_get (routes this) method = Some (pre ++ (pathname, old) :: post) ->
      ~ In pathname (Map_keys pre) ->
      pathname <> EmptyString ->
      exists this',
        add this method (VString pathname) handler = (Normal tt, this') /\
        Map_get (routes this') method =
          Some (pre ++ (pathname, handler) :: post)) /\
  (forall (pathname : JSValue) (handler : Handler) (method' : string),
      method' <> method ->
      Map_get (routes (snd (add this method pathname handler))) method' =
      Map_get (routes this) method').
Proof.
  split.
  - intros pre post pathname old handler Hget Hfirst Hne.
    rewrite (add_accepts _ _ _ _ Hne), Hget.
    eexists. split; [reflexivity|]. simpl.
    rewrite Map_get_set_same. f_equal. now apply Map_set_present.
  - intros pathname handler method' Hne. now apply add_other_methods.
Qed.

Lemma add_replaces_in_place_witness :
  exists this',
    post two_posts (VString "/a") (respond "a again") = (Normal tt, this') /\
    Map_get (routes this') "POST" =
      Some [("/a", respond "a again"); ("/b", respond "b")] /\
    Map_get (routes this') "GET" = Some [("/a", respond "get a")].
Proof.
  destruct (proj1 (add_replaces_in_place two_posts "POST")
              [] [("/b", respond "b")] "/a" (respond "a") (respond "a again"))
    as (this' & Hadd & Hpost);
    [reflexivity | simpl; tauto | discriminate |].
  exists this'. repeat split; [assumption..|].
  assert (E : this' =
              snd (add two_posts "POST" (VString "/a") (respond "a again")))
    by now rewrite Hadd.
  rewrite E, (proj2 (add_replaces_in_place two_posts "POST"));
    [reflexivity | discriminate].
Defined.

(** C9.  [static] registers one GET route, at the pattern made of the mount
    path followed by [/:path*]: the GET map gets that entry (by [set], so an
    entry of every other pattern is kept) and the maps of the other methods
    are untouched.  Its handler always answers; when the file at the captured
    path under the directory cannot be opened, whatever the reason, the
    answer has status 404 and body [Not Found]; when the file opens and the
    captured path ends in [.js], the answer streams the file with the header
    [content-type: text/javascript]. *)
Theorem static_serves_files `{Host} (this : Router)
    (pathname foldername : option string) (inner : Map Handler) :
  Map_get (routes this) "GET" = Some inner ->
  let mount := match pathname with Some p => p | None => "/static" end in
  let folder := match foldername with Some f => f | None => "static" end in
  let pattern := (mount ++ "/:path*")%string in
  let handler := static_handler folder in
  (exists this',
      static this pathname foldername = (Normal tt, this') /\
      Map_get (routes this') "GET" = Some (Map_set inner pattern handler) /\
      Map_get (Map_set inner pattern handler) pattern = Some handler /\
      (Map_keys (Map_set inner pattern handler) = Map_keys inner \/
       Map_keys (Map_set inner pattern handler) = Map_keys inner ++ [pattern]) /\
      (forall other, other <> pattern ->
                     Map_get (Map_set inner pattern handler) other =
                     Map_get inner other) /\
      (forall method, method <> "GET"%string ->
                      Map_get (routes this') method =
                      Map_get (routes this) method)) /\
  (forall ctx, exists response, call handler ctx = Normal response) /\
  (forall ctx groups path,
      params_pathname (ctx_params ctx) = Some groups ->
      Dict_get groups "path" = Some (Some path) ->
      (forall e,
          Deno_open ("./" ++ folder ++ "/" ++ path)%string = Throw e ->
          call handler ctx =
          Normal {| res_body := BodyText "Not Found";
                    res_status := 404;
                    res_headers := [] |}) /\
      (forall file,
          Deno_open ("./" ++ folder ++ "/" ++ path)%string = Normal file ->
          String_endsWith path ".js" = true ->
          call handler ctx =
          Normal {| res_body := BodyStream (readable file);
                    res_status := 200;
                    res_headers := [("content-type", "text/javascript")] |})).
Proof.
  intros Hget mount folder pattern handler. split; [|split].
  - unfold static. fold mount folder pattern handler.
    assert (Hne : pattern <> EmptyString).
    { unfold pattern. destruct mount; discriminate. }
    rewrite (add_accepts _ _ _ _ Hne), Hget.
    eexists. split; [reflexivity|]. simpl.
    split; [apply Map_get_set_same|].
    split; [apply Map_get_set_same|].
    split; [|split].
    + destruct (in_dec string_dec pattern (Map_keys inner)).
      * left. now apply Map_keys_set_present.
      * right. now apply Map_keys_set_absent.
    + intros other Hother. now apply Map_get_set_other.
    + intros method Hmethod. now apply Map_get_set_other.
  - intros ctx. unfold handler, static_handler. simpl.
    destruct (params_pathname (ctx_params ctx)) as [groups|]; simpl; eauto.
    destruct (Dict_get groups "path") as [[path|]|]; simpl.
    + destruct (Deno_open _); simpl; eauto.
    + destruct (Deno_open _); simpl; eauto.
    + destruct (Deno_open _); simpl; eauto.
  - intros ctx groups path Hgroups Hpath. split.
    + intros e Hopen. unfold handler, static_handler, call, bind, try_catch.
      rewrite Hgroups, Hpath. cbv beta iota. now rewrite Hopen.
    + intros file Hopen Hjs.
      unfold handler, static_handler, call, bind, try_catch.
      rewrite Hgroups, Hpath. cbv beta iota. now rewrite Hopen, Hjs.
Qed.

Lemma static_serves_files_witness :
  let this' := registered (static (H := host deno_tests) new_Router None None) in
  Map_get (routes this') "GET" =
    Some [("/static/:path*", static_handler (H := host deno_tests) "static")] /\
  route (H := host deno_tests) this' (GET "http://localhost/static/missing.css") =
    Normal {| res_body := BodyText "Not Found";
              res_status := 404;
              res_headers := [] |} /\
  route (H := host deno_tests) this' (GET "http://localhost/static/app.js") =
    Normal {| res_body := BodyStream [Byte.x2f; Byte.x2f];
              res_status := 200;
              res_headers := [("content-type", "text/javascript")] |}.
Proof.
  pose proof (static_serves_files (H := host deno_tests) new_Router None None
                [] eq_refl) as Hstatic.
  cbv zeta in Hstatic.
  destruct Hstatic as ((this' & Hstatic & Hget & _) & _ & Hhandler).
  intros this''. subst this''. unfold registered. rewrite Hstatic.
  cbn [snd]. split; [exact Hget|].
  injection Hstatic as <-.
  pose (context := fun file =>
          {| ctx_req := GET ("http://localhost/static/" ++ file)%string;
             ctx_params :=
               {| params_pathname := Some [("path", Some file)];
                  params_search := Some [("0", Some EmptyString)] |};
             ctx_body := VNull |}).
  split.
  - change (call (static_handler (H := host deno_tests) "static")
                 (context "missing.css") = Normal {| res_body := BodyText "Not Found";
                                           res_status := 404;
                                           res_headers := [] |}).
    apply (proj1 (Hhandler (context "missing.css")
                           [("path", Some "missing.css"%string)]
                           "missing.css" eq_refl eq_refl)
                 (JSError "NotFound" "No such file or directory")).
    reflexivity.
  - change (call (static_handler (H := host deno_tests) "static")
                 (context "app.js") =
            Normal {| res_body := BodyStream [Byte.x2f; Byte.x2f];
                      res_status := 200;
                      res_headers := [("content-type", "text/javascript")] |}).
    apply (proj2 (Hhandler (context "app.js") [("path", Some "app.js"%string)]
                           "app.js" eq_refl eq_refl)
                 {| readable := [Byte.x2f; Byte.x2f] |}); reflexivity.
Defined.

(** ** The argument of a handler *)




(** C8.  Whenever a pattern matches, the [body] that the handler receives
    is the value of the request's body text parsed as JSON; it is [null]
    when the text is not JSON (the empty text of a request without body
    included) and when the body can no longer be read; building it never
    throws, so nothing of this reaches the caller of [route]. *)
Theorem handler_receives_parsed_body `{Host} (pathname : string)
    (handler : Handler) (rest : Map Handler) (req : Request) (status : Z)
    (url : URLPattern) :
  new_URLPattern pathname = Normal url ->
  URLPattern_test url (req_url req) = true ->
  exists ctx,
    route_entries ((pathname, handler) :: rest) req status =
      match call handler ctx with
      | Normal response => Normal response
      | Throw _ => route_entries rest (ctx_req ctx) 500
      end /\
    fst (parseBody req) = Normal (ctx_body ctx) /\
    (req_bodyUsed req = false ->
     forall v, JSON_parse (body_text req) = Normal v -> ctx_body ctx = v) /\
    (forall e, JSON_parse (body_text req) = Throw e -> ctx_body ctx = VNull) /\
    (forall text,
        req_body req = Some text -> req_bodyUsed req = true ->
        ctx_body ctx = VNull).
Proof.
  intros Hnew Htest.
  destruct (handler_context_normal url req Htest) as [ctx Hctx].
  exists ctx. split; [now apply route_entries_match with (url := url)|].
  pose proof (handler_context_body _ _ _ Hctx) as Hbody.
  split; [assumption|].
  rewrite parseBody_value in Hbody. injection Hbody as Hbody.
  rewrite <- Hbody. unfold Request_text, body_text.
  repeat split.
  - intros Hunused v Hparse. rewrite Hunused.
    destruct (req_body req); simpl; now rewrite Hparse.
  - intros e Hparse.
    destruct (req_body req); [destruct (req_bodyUsed req)|]; simpl;
      try reflexivity; now rewrite Hparse.
  - intros text -> ->. reflexivity.
Qed.

Lemma handler_receives_parsed_body_witness :
  route (H := host deno_tests)
        (registered (post new_Router (VString "/test") greet_body))
        (request "POST" "http://localhost/test" json_test) =
    Normal (text_response "test, TEST!") /\
  route (H := host deno_tests)
        (registered (post new_Router (VString "/test") report_body))
        (request "POST" "http://localhost/test" "not json") =
    Normal (text_response "null").
Proof.
  split.
  - destruct (handler_receives_parsed_body (H := host deno_tests)
                "/test" greet_body []
                (request "POST" "http://localhost/test" json_test) 404
                "/test" eq_refl eq_refl)
      as (ctx & Hrun & _ & Hjson & _).
    change (route_entries (H := host deno_tests) [("/test", greet_body)]
              (request "POST" "http://localhost/test" json_test) 404 =
            Normal (text_response "test, TEST!")).
    rewrite Hrun. unfold call, greet_body.
    now rewrite (Hjson eq_refl (VObject [("test", VString "TEST")]) eq_refl).
  - destruct (handler_receives_parsed_body (H := host deno_tests)
                "/test" report_body []
                (request "POST" "http://localhost/test" "not json") 404
                "/test" eq_refl eq_refl)
      as (ctx & Hrun & _ & _ & Hnull & _).
    change (route_entries (H := host deno_tests) [("/test", report_body)]
              (request "POST" "http://localhost/test" "not json") 404 =
            Normal (text_response "null")).
    rewrite Hrun. unfold call, report_body.
    now rewrite (Hnull (JSError "SyntaxError" "Unexpected token") eq_refl).
Defined.

(** ** Completion of the dispatch *)

Module Completes.

Section WithHost.

Context `{Host}.

(** Over templates that all compile, the loop ends with a response: the
    bodyless one with the status it started from or with 500, or what a
    handler of the list returned. *)
Lemma route_entries_completes entries :
  Forall compiles entries ->
  forall req status,
  exists response,
    route_entries entries req status = Normal response /\
    (response = status_only status \/
     response = status_only 500 \/
     exists pathname handler ctx,
       In (pathname, handler) entries /\
       call handler ctx = Normal response).
Proof.
  induction 1 as [|[pathname handler] rest [url Hnew] _ IH];
    intros req status.
  - exists (status_only status). split; [reflexivity|]. now left.
  - simpl in Hnew.
    destruct (URLPattern_test url (req_url req)) eqn:Htest.
    + destruct (handler_context_normal url req Htest) as [ctx Hctx].
      rewrite (route_entries_match _ _ _ _ _ _ _ Hnew Htest Hctx).
      destruct (call handler ctx) as [response|e] eqn:Hcall.
      * exists response. split; [reflexivity|].
        right. right. exists pathname, handler, ctx.
        split; [now left|assumption].
      * destruct (IH (ctx_req ctx) 500)
          as (response & Hrun & [Hr|[Hr|(p & h & c & Hin & Hc)]]);
          exists response; (split; [assumption|]).
        -- now right; left.
        -- now right; left.
        -- right. right. exists p, h, c. split; [now right|assumption].
    + rewrite route_entries_skip
        by (unfold skipped, pattern_test; simpl;
            rewrite Hnew; simpl; now rewrite Htest).
      destruct (IH req status)
        as (response & Hrun & [Hr|[Hr|(p & h & c & Hin & Hc)]]);
        exists response; (split; [assumption|]).
      * now left.
      * now right; left.
      * right. right. exists p, h, c. split; [now right|assumption].
Qed.

End WithHost.

End Completes.

Import Completes.

(** C6, as the code has it.  When every pattern registered for the method of
    the request is a template that [URLPattern] accepts, dispatch does not
    throw: it completes with the response that a handler of that method
    returned, or with a bodyless response whose status is 405, 404 or 500. *)
Theorem route_completes_when_patterns_compile `{Host} (this : Router)
    (req : Request) :
  (forall entries,
      Map_get (routes this) (req_method req) = Some entries ->
      Forall compiles entries) ->
  exists response,
    route this req = Normal response /\
    (response = status_only 405 \/
     response = status_only 404 \/
     response = status_only 500 \/
     exists entries pathname handler ctx,
       Map_get (routes this) (req_method req) = Some entries /\
       In (pathname, handler) entries /\
       call handler ctx = Normal response).
Proof.
  intros Hcompile.
  destruct (Map_get (routes this) (req_method req)) as [entries|] eqn:Hget.
  - rewrite (route_supported _ _ _ Hget).
    destruct (route_entries_completes entries (Hcompile _ eq_refl) req 404)
      as (response & Hrun & [Hr|[Hr|(p & h & c & Hin & Hc)]]);
      exists response; (split; [assumption|]).
    + now right; left.
    + now right; right; left.
    + right. right. right. now exists entries, p, h, c.
  - rewrite (route_unsupported _ _ Hget). eexists. split; [reflexivity|].
    now left.
Qed.

Lemma route_completes_when_patterns_compile_witness :
  exists response,
    route (H := host deno_tests) failing_then_fallback
          (GET "http://localhost/test") = Normal response.
Proof.
  destruct (route_completes_when_patterns_compile (H := host deno_tests)
              failing_then_fallback (GET "http://localhost/test"))
    as (response & Hrun & _).
  - intros entries [= <-].
    repeat constructor; eexists; reflexivity.
  - now exists response.
Defined.

(** C6, as the spec has it, fails: a non-empty pattern that [URLPattern]
    rejects is accepted at registration, and the dispatch of any GET request
    then throws what the constructor throws. *)
Lemma route_throws_on_rejected_template :
  fst (get new_Router (VString "/(") (respond "ok")) = Normal tt /\
  route (H := host deno_tests)
        (registered (get new_Router (VString "/(") (respond "ok")))
        (GET "http://localhost/test") =
    Throw (JSError "TypeError" "Invalid pathname pattern") /\
  ~ (forall (H : Host) (this : Router) (req : Request),
        exists response, route this req = Normal response).
Proof.
  split; [reflexivity|]. split; [reflexivity|].
  intros Hall.
  destruct (Hall (host deno_tests)
                 (registered (get new_Router (VString "/(") (respond "ok")))
                 (GET "http://localhost/test")) as [response Hrun].
  discriminate Hrun.
Qed.

(** ** The tests of [router.js] *)

Module Tests.

Example invalid_pathname_throws :
  fst (get new_Router (VString EmptyString) respond_null) =
  Throw (JSError "Error" "Invalid pathname").
Proof. reflexivity. Qed.

Example get_route_with_params_works :
  run (registered (get new_Router (VString "/test/:id") greet_id))
      (GET "http://localhost/test/123") =
  Normal (text_response "test, 123!").
Proof. reflexivity. Qed.

Example post_route_with_body_works :
  run (registered (post new_Router (VString "/test") greet_body))
      (request "POST" "http://localhost/test" json_test) =
  Normal (text_response "test, TEST!").
Proof. reflexivity. Qed.

Example patch_route_with_body_works :
  run (registered (patch new_Router (VString "/test") greet_body))
      (request "PATCH" "http://localhost/test" json_test) =
  Normal (text_response "test, TEST!").
Proof. reflexivity. Qed.

Example delete_route_with_body_works :
  run (registered (delete new_Router (VString "/test") greet_body))
      (request "DELETE" "http://localhost/test" json_test) =
  Normal (text_response "test, TEST!").
Proof. reflexivity. Qed.

Example unknown_method_returns_405 :
  res_status
    match run new_Router
              {| req_method := "TEST"; req_url := "http://localhost/test";
                 req_body := None; req_bodyUsed := false |} with
    | Normal response => response
    | Throw _ => status_only 0
    end = 405.
Proof. reflexivity. Qed.

Example unknown_route_returns_404 :
  run (registered (get new_Router (VString "/test") respond_null))
      (GET "http://localhost/bar") = Normal (status_only 404).
Proof. reflexivity. Qed.

Example server_error_returns_500 :
  run (registered (get new_Router (VString "/test") throwing))
      (GET "http://localhost/test") = Normal (status_only 500).
Proof. reflexivity. Qed.

(** The body is read once: a handler reached after another one has failed
    is given [null], also for a body that is JSON. *)
Example later_handler_gets_null :
  run failing_then_report
      (request "POST" "http://localhost/test" json_test) =
  Normal (text_response "null").
Proof. reflexivity. Qed.

End Tests.

(** * Further properties *)

(** ** More on the ordered map *)

Module MapMore.

Section Facts.

Context {V : Type}.
Implicit Types (m : Map V) (k : string) (v : V).

(** Of two writes to one key the second is the one that counts. *)
Lemma Map_set_overwrite m k v v' :
  Map_set (Map_set m k v) k v' = Map_set m k v'.
Proof.
  induction m as [|[k0 v0] rest IH]; simpl.
  - now rewrite String.eqb_refl.
  - destruct (String.eqb k0 k) eqn:E; simpl.
    + now rewrite String.eqb_refl.
    + now rewrite E, IH.
Qed.

(** Writes to two keys that are both present commute. *)
Lemma Map_set_commute m k1 k2 v1 v2 a b :
  k1 <> k2 ->
  Map_get m k1 = Some a ->
  Map_get m k2 = Some b ->
  Map_set (Map_set m k1 v1) k2 v2 = Map_set (Map_set m k2 v2) k1 v1.
Proof.
  intros Hne.
  assert (H12 : String.eqb k1 k2 = false) by now apply String.eqb_neq.
  assert (H21 : String.eqb k2 k1 = false)
    by (apply String.eqb_neq; congruence).
  induction m as [|[k0 v0] rest IH]; simpl; [discriminate|].
  destruct (String.eqb k0 k1) eqn:E1; destruct (String.eqb k0 k2) eqn:E2.
  - apply String.eqb_eq in E1, E2. congruence.
  - intros _ Hb. simpl. now rewrite H12, E1.
  - intros Ha _. simpl. now rewrite E2, H21.
  - intros Ha Hb. simpl. rewrite E1, E2. f_equal. now apply IH.
Qed.

Lemma In_keys_set m k v x :
  In x (Map_keys (Map_set m k v)) -> x = k \/ In x (Map_keys m).
Proof.
  induction m as [|[k0 v0] rest IH]; simpl.
  - intros [<-|[]]. now left.
  - destruct (String.eqb k0 k) eqn:E; simpl.
    + intros [<-|Hin]; [now left | right; now right].
    + intros [<-|Hin]; [right; now left|].
      destruct (IH Hin); [now left | right; now right].
Qed.

Lemma NoDup_keys_set m k v :
  NoDup (Map_keys m) -> NoDup (Map_keys (Map_set m k v)).
Proof.
  induction m as [|[k0 v0] rest IH]; simpl; intros Hnd.
  - constructor; [tauto|constructor].
  - inversion Hnd as [|? ? Hnin Hrest]; subst.
    destruct (String.eqb k0 k) eqn:E; simpl.
    + apply String.eqb_eq in E. subst k0. now constructor.
    + constructor; [|now apply IH].
      intros Hin. apply In_keys_set in Hin as [->|Hin]; [|contradiction].
      now rewrite String.eqb_refl in E.
Qed.

End Facts.

End MapMore.

Import MapMore.

(** ** Registration, continued *)

Module TidyFacts.

Lemma tidy_new_Router : tidy new_Router.
Proof.
  split; [reflexivity|].
  intros method entries. cbv [new_Router routes Map_get].
  repeat (destruct (String.eqb _ method);
          [intros [= <-]; split; [constructor|tauto]|]).
  discriminate.
Qed.

Lemma tidy_add this method pathname handler :
  tidy this -> tidy (snd (add this method pathname handler)).
Proof.
  intros [Hkeys Hmaps]. unfold add.
  destruct pathname; try (split; assumption).
  destruct (String.eqb s EmptyString) eqn:Es; [split; assumption|].
  destruct (Map_get (routes this) method) as [inner|] eqn:Hget;
    [|split; assumption].
  simpl. split.
  - simpl. erewrite Map_keys_set_get; eauto.
  - intros method' entries. simpl.
    destruct (string_dec method' method) as [->|Hne].
    + rewrite Map_get_set_same. intros [= <-].
      destruct (Hmaps _ _ Hget) as [Hnd Hempty].
      split; [now apply NoDup_keys_set|].
      intros Hin. apply In_keys_set in Hin as [<-|Hin]; [|contradiction].
      now rewrite String.eqb_refl in Es.
    + rewrite Map_get_set_other by assumption. apply Hmaps.
Qed.

Lemma tidy_perform `{Host} this c : tidy this -> tidy (snd (perform this c)).
Proof.
  destruct c; apply tidy_add.
Qed.

End TidyFacts.

Import TidyFacts.

(** X1.  A registration under a method that the router does not have, with
    a pattern that passes the guard, neither throws nor stores anything, and
    a request with that method is still answered 405. *)
Theorem add_unknown_method_dropped `{Host} (this : Router) (method s : string)
    (handler : Handler) :
  well_formed this ->
  ~ In method supported_methods ->
  s <> EmptyString ->
  add this method (VString s) handler = (Normal tt, this) /\
  forall req,
    req_method req = method ->
    route (snd (add this method (VString s) handler)) req =
    Normal (status_only 405).
Proof.
  intros Hwf Hnin Hs.
  assert (Hget : Map_get (routes this) method = None).
  { pose proof (well_formed_unsupported _ _ Hwf Hnin) as Hhas.
    unfold Map_has in Hhas.
    now destruct (Map_get (routes this) method). }
  assert (Hadd : add this method (VString s) handler = (Normal tt, this))
    by now rewrite (add_accepts _ _ _ _ Hs), Hget.
  split; [exact Hadd|].
  intros req <-. rewrite Hadd. now apply route_unsupported.
Qed.

Lemma add_unknown_method_dropped_witness :
  add new_Router "PUT" (VString "/test") (respond "put") =
    (Normal tt, new_Router) /\
  run (snd (add new_Router "PUT" (VString "/test") (respond "put")))
      {| req_method := "PUT"; req_url := "http://localhost/test";
         req_body := None; req_bodyUsed := false |} =
    Normal (status_only 405).
Proof.
  destruct (add_unknown_method_dropped (H := host deno_tests)
              new_Router "PUT" "/test" (respond "put")) as [Hadd Hroute].
  - reflexivity.
  - simpl. intros [E|[E|[E|[E|[]]]]]; discriminate E.
  - discriminate.
  - split; [exact Hadd|]. now apply Hroute.
Defined.

(** X2.  Whatever calls of [get], [post], [patch], [delete] and [static] a
    program makes on a new router, thrown ones included, the router keeps
    its four method keys, and no method's map ever holds a pattern twice or
    holds the empty pattern. *)
Theorem registrations_keep_router_tidy `{Host} (calls : list Call) :
  tidy (perform_all new_Router calls).
Proof.
  generalize tidy_new_Router. generalize new_Router.
  induction calls as [|c rest IH]; intros this Htidy; simpl.
  - assumption.
  - apply IH. now apply tidy_perform.
Qed.

(** X3.  A pattern that the method's map does not hold yet goes to the end
    of the map: the entries registered before keep their places, ahead of
    it. *)
Theorem add_new_pattern_appends (this : Router) (method s : string)
    (inner : Map Handler) (handler : Handler) :
  Map_get (routes this) method = Some inner ->
  ~ In s (Map_keys inner) ->
  s <> EmptyString ->
  exists this',
    add this method (VString s) handler = (Normal tt, this') /\
    Map_get (routes this') method = Some (inner ++ [(s, handler)]).
Proof.
  intros Hget Hnew Hs.
  rewrite (add_accepts _ _ _ _ Hs), Hget.
  eexists. split; [reflexivity|]. simpl.
  rewrite Map_get_set_same. f_equal. now apply Map_set_absent.
Qed.

Lemma add_new_pattern_appends_witness :
  exists this',
    post two_posts (VString "/c") (respond "c") = (Normal tt, this') /\
    Map_get (routes this') "POST" =
      Some [("/a", respond "a"); ("/b", respond "b"); ("/c", respond "c")].
Proof.
  apply (add_new_pattern_appends two_posts "POST" "/c"
           [("/a", respond "a"); ("/b", respond "b")] (respond "c")).
  - reflexivity.
  - simpl. intros [E|[E|[]]]; discriminate E.
  - discriminate.
Defined.

(** X4.  Registrations for two different methods commute: in either order
    they leave the same router, whatever the patterns and handlers (a call
    that throws leaves the router as it was). *)
Theorem add_commutes_across_methods (this : Router) (method1 method2 : string)
    (pathname1 pathname2 : JSValue) (handler1 handler2 : Handler) :
  method1 <> method2 ->
  snd (add (snd (add this method1 pathname1 handler1))
           method2 pathname2 handler2) =
  snd (add (snd (add this method2 pathname2 handler2))
           method1 pathname1 handler1).
Proof.
  intros Hne.
  assert (Hne' : method2 <> method1) by congruence.
  pose proof (add_other_methods this method1 pathname1 handler1 method2 Hne')
    as H12.
  pose proof (add_other_methods this method2 pathname2 handler2 method1 Hne)
    as H21.
  unfold add in *.
  destruct pathname1 as [| | | |s1| |], pathname2 as [| | | |s2| |];
    try reflexivity;
    try (destruct (String.eqb s1 EmptyString);
         destruct (Map_get (routes this) method1); reflexivity);
    try (destruct (String.eqb s2 EmptyString);
         destruct (Map_get (routes this) method2); reflexivity).
  destruct (String.eqb s1 EmptyString); simpl in *;
    [destruct (String.eqb s2 EmptyString);
     destruct (Map_get (routes this) method2); reflexivity|].
  destruct (String.eqb s2 EmptyString); simpl in *;
    [destruct (Map_get (routes this) method1); reflexivity|].
  destruct (Map_get (routes this) method1) as [inner1|] eqn:G1;
    destruct (Map_get (routes this) method2) as [inner2|] eqn:G2;
    simpl in *; rewrite ?H12, ?H21, ?G1, ?G2; simpl; try reflexivity.
  f_equal. eapply Map_set_commute; eauto.
Qed.

Lemma add_commutes_across_methods_witness :
  registered (post (registered (get new_Router (VString "/a") (respond "g")))
                   (VString "/a") (respond "p")) =
  registered (get (registered (post new_Router (VString "/a") (respond "p")))
                  (VString "/a") (respond "g")).
Proof.
  apply (add_commutes_across_methods new_Router "GET" "POST").
  discriminate.
Defined.

(** X5.  Last write wins: registering a pattern for a method and then
    registering it again leaves the router that the second registration
    alone would leave. *)
Theorem add_last_write_wins (this : Router) (method : string)
    (pathname : JSValue) (handler handler' : Handler) :
  snd (add (snd (add this method pathname handler)) method pathname handler') =
  snd (add this method pathname handler').
Proof.
  unfold add.
  destruct pathname as [| | | |s| |]; try reflexivity.
  destruct (String.eqb s EmptyString); [reflexivity|].
  destruct (Map_get (routes this) method) as [inner|] eqn:Hget; simpl.
  - rewrite Map_get_set_same. simpl.
    now rewrite !Map_set_overwrite.
  - now rewrite Hget.
Qed.

(** ** Dispatch after registration *)

Module DispatchMore.

Section WithHost.

Context `{Host}.

Lemma parseBody_url req : req_url (snd (parseBody req)) = req_url req.
Proof.
  rewrite parseBody_after. apply after_read_url.
Qed.

(** Writing an entry whose pattern does not match the URL, in the place of
    an old one or at the end, does not change what the loop does. *)
Lemma route_entries_set_unmatched s handler input :
  pattern_test s input = Normal false ->
  forall inner req status,
    req_url req = input ->
    route_entries (Map_set inner s handler) req status =
    route_entries inner req status.
Proof.
  intros Hskip. induction inner as [|[k0 v0] rest IH]; intros req status Hurl.
  - apply route_entries_skip. unfold skipped. simpl. now rewrite Hurl.
  - cbn [Map_set]. destruct (String.eqb k0 s) eqn:E.
    + apply String.eqb_eq in E. subst k0.
      rewrite !route_entries_skip;
        [reflexivity | |]; unfold skipped; simpl; now rewrite Hurl.
    + cbn [route_entries].
      destruct (new_URLPattern k0) as [url|]; [|reflexivity].
      cbn [bind].
      destruct (URLPattern_test url (req_url req)); [|now apply IH].
      destruct (parseParams url (req_url req)); [|reflexivity].
      cbn [bind].
      pose proof (parseBody_url req) as Hurl'.
      destruct (parseBody req) as [[body|] req']; [|reflexivity].
      cbn [bind]. cbn [snd] in Hurl'.
      destruct (call v0 _); [reflexivity|].
      apply IH. congruence.
Qed.

(** Writing an entry whose pattern matches into a map that the loop would
    pass without a match makes the loop stop at that entry (which is then
    the last one). *)
Lemma route_entries_set_fresh_match s handler url inner req status :
  Forall (skipped req) inner ->
  new_URLPattern s = Normal url ->
  URLPattern_test url (req_url req) = true ->
  route_entries (Map_set inner s handler) req status =
  route_entries [(s, handler)] req status.
Proof.
  intros Hinner Hnew Htest.
  induction Hinner as [|[k0 v0] rest Hskip _ IH]; [reflexivity|].
  cbn [Map_set]. destruct (String.eqb k0 s) eqn:E.
  - apply String.eqb_eq in E. subst k0.
    unfold skipped, pattern_test in Hskip. simpl in Hskip.
    rewrite Hnew in Hskip. simpl in Hskip. congruence.
  - now rewrite route_entries_skip.
Qed.

Lemma route_after_add_same_method this method s handler inner req :
  s <> EmptyString ->
  Map_get (routes this) method = Some inner ->
  req_method req = method ->
  route (snd (add this method (VString s) handler)) req =
  route_entries (Map_set inner s handler) req 404.
Proof.
  intros Hs Hget Hmethod.
  rewrite (add_accepts _ _ _ _ Hs), Hget. cbn [snd].
  apply route_supported. cbn [routes]. rewrite Hmethod.
  apply Map_get_set_same.
Qed.

Lemma route_after_add_other_method this method pathname handler req :
  method <> req_method req ->
  route (snd (add this method pathname handler)) req = route this req.
Proof.
  intros Hne. unfold route, Map_has.
  now rewrite add_other_methods by congruence.
Qed.

End WithHost.

(** [endsWith], against concatenation. *)

Lemma substring_all (s : string) : substring 0 (String.length s) s = s.
Proof.
  induction s as [|c s IH]; simpl; [reflexivity|]. now rewrite IH.
Qed.

Lemma substring_skip (pre suffix : string) :
  substring (String.length pre) (String.length suffix) (pre ++ suffix)%string
  = suffix.
Proof.
  induction pre as [|c pre IH]; simpl; [apply substring_all|exact IH].
Qed.

Lemma substring_split (s : string) :
  forall k, (k <= String.length s)%nat ->
  s = (substring 0 k s ++ substring k (String.length s - k) s)%string.
Proof.
  induction s as [|c s IH]; intros [|k] Hk; simpl in *.
  - reflexivity.
  - lia.
  - now rewrite substring_all.
  - f_equal. apply IH. lia.
Qed.

Lemma length_append (s t : string) :
  String.length (s ++ t)%string = (String.length s + String.length t)%nat.
Proof.
  induction s as [|c s IH]; simpl; [reflexivity|]. now rewrite IH.
Qed.

Lemma String_endsWith_spec (s suffix : string) :
  String_endsWith s suffix = true <->
  exists stem, s = (stem ++ suffix)%string.
Proof.
  unfold String_endsWith. split.
  - destruct (Nat.leb (String.length suffix) (String.length s)) eqn:Hle;
      [|discriminate].
    apply Nat.leb_le in Hle. intros Heq. apply String.eqb_eq in Heq.
    exists (substring 0 (String.length s - String.length suffix) s).
    rewrite <- Heq at 2.
    rewrite (substring_split s (String.length s - String.length suffix))
      at 1 by lia.
    do 2 f_equal. lia.
  - intros [stem ->]. rewrite length_append.
    replace (Nat.leb _ _) with true by (symmetry; apply Nat.leb_le; lia).
    replace (String.length stem + String.length suffix
             - String.length suffix)%nat
      with (String.length stem) by lia.
    rewrite substring_skip. apply String.eqb_refl.
Qed.

End DispatchMore.

Import DispatchMore.

(** X6.  A registration for one method does not change the answer to a
    request of another method, whatever is registered (a template that
    [URLPattern] rejects included). *)
Theorem route_ignores_other_methods `{Host} (this : Router) (method : string)
    (pathname : JSValue) (handler : Handler) (req : Request) :
  method <> req_method req ->
  route (snd (add this method pathname handler)) req = route this req.
Proof.
  apply route_after_add_other_method.
Qed.

Lemma route_ignores_other_methods_witness :
  run (registered (post three_routes (VString "/(") throwing))
      (GET "http://localhost/test") =
  run three_routes (GET "http://localhost/test").
Proof.
  apply (route_ignores_other_methods (H := host deno_tests)
           three_routes "POST" (VString "/(") throwing).
  discriminate.
Defined.

(** X7.  Registering a pattern that does not match the URL of a request,
    be it new or already there, under whatever method and with whatever
    handler, does not change the answer to that request. *)
Theorem route_ignores_unmatched_route `{Host} (this : Router)
    (method s : string) (handler : Handler) (req : Request) :
  pattern_test s (req_url req) = Normal false ->
  route (snd (add this method (VString s) handler)) req = route this req.
Proof.
  intros Hskip.
  destruct (string_dec method (req_method req)) as [Hm|Hm];
    [|now apply route_after_add_other_method].
  destruct (string_dec s EmptyString) as [->|Hs]; [reflexivity|].
  destruct (Map_get (routes this) method) as [inner|] eqn:Hget.
  - rewrite (route_after_add_same_method _ _ _ _ _ _ Hs Hget (eq_sym Hm)).
    rewrite (route_entries_set_unmatched _ _ _ Hskip) by reflexivity.
    symmetry. apply route_supported. now rewrite <- Hm.
  - now rewrite (add_accepts _ _ _ _ Hs), Hget.
Qed.

Lemma route_ignores_unmatched_route_witness :
  run (registered (get failing_then_fallback (VString "/test/:id") throwing))
      (GET "http://localhost/test") =
  run failing_then_fallback (GET "http://localhost/test").
Proof.
  apply (route_ignores_unmatched_route (H := host deno_tests)
           failing_then_fallback "GET" "/test/:id" throwing).
  reflexivity.
Defined.

(** X8.  When the loop comes to a template that [URLPattern] rejects
    without a pattern having matched before, the dispatch throws what the
    constructor throws, whatever is registered after it. *)
Theorem route_throws_at_rejected_template `{Host} (this : Router)
    (req : Request) (pre post : Map Handler) (pathname : string)
    (handler : Handler) (e : Thrown) :
  Map_get (routes this) (req_method req) =
    Some (pre ++ (pathname, handler) :: post) ->
  Forall (skipped req) pre ->
  new_URLPattern pathname = Throw e ->
  route this req = Throw e.
Proof.
  intros Hget Hpre Hnew.
  rewrite (route_supported _ _ _ Hget), route_entries_skip_all by assumption.
  cbn [route_entries]. now rewrite Hnew.
Qed.

Lemma route_throws_at_rejected_template_witness :
  run (registered (get (registered (get (registered (get new_Router
         (VString "/test/:id") greet_id))
         (VString "/(") (respond "never")))
         (VString "/test") (respond "late")))
      (GET "http://localhost/test") =
  Throw (JSError "TypeError" "Invalid pathname pattern").
Proof.
  apply (route_throws_at_rejected_template (H := host deno_tests) _ _
           [("/test/:id", greet_id)] [("/test", respond "late")]
           "/(" (respond "never")).
  - reflexivity.
  - repeat constructor.
  - reflexivity.
Defined.

(** X9.  The request that a handler is given has the method and the URL of
    the incoming one, but its body has been read by then: when the request
    has a body, reading it again throws, and parsing it again, as the loop
    does for a later match, gives [null]; a request without body reads as
    the empty text again and parses to the same [body]. *)
Theorem handler_request_is_consumed `{Host} (url : URLPattern)
    (req : Request) (ctx : Ctx) :
  handler_context url req = Normal ctx ->
  req_method (ctx_req ctx) = req_method req /\
  req_url (ctx_req ctx) = req_url req /\
  fst (Request_text (ctx_req ctx)) =
    match req_body req with
    | Some _ => Throw (JSError "TypeError" "Body already consumed")
    | None => Normal EmptyString
    end /\
  fst (parseBody (ctx_req ctx)) =
    Normal match req_body req with
           | Some _ => VNull
           | None => ctx_body ctx
           end.
Proof.
  intros Hctx.
  pose proof (handler_context_body _ _ _ Hctx) as Hbody.
  rewrite (handler_context_req _ _ _ Hctx).
  rewrite parseBody_value in *. injection Hbody as Hbody.
  destruct req as [method input [text|] [|]]; simpl in *;
    repeat split; try reflexivity; now rewrite Hbody.
Qed.

Lemma handler_request_is_consumed_witness :
  exists ctx,
    handler_context (H := host deno_tests) "/test"
      (request "POST" "http://localhost/test" json_test) = Normal ctx /\
    ctx_body ctx = VObject [("test", VString "TEST")] /\
    fst (Request_text (ctx_req ctx)) =
      Throw (JSError "TypeError" "Body already consumed") /\
    fst (parseBody (H := host deno_tests) (ctx_req ctx)) = Normal VNull.
Proof.
  eexists. split; [reflexivity|]. split; [reflexivity|].
  split;
    apply (handler_request_is_consumed (H := host deno_tests) "/test"
             (request "POST" "http://localhost/test" json_test) _ eq_refl).
Defined.

(** X10.  Registering a pattern for the method of a request whose URL it
    matches, on a router that had no match for the request: the dispatch
    calls the new handler; its response is the answer, and if it throws the
    answer is the bodyless 500. *)
Theorem register_then_dispatch `{Host} (this : Router) (s : string)
    (handler : Handler) (inner : Map Handler) (req : Request)
    (url : URLPattern) :
  Map_get (routes this) (req_method req) = Some inner ->
  Forall (skipped req) inner ->
  s <> EmptyString ->
  new_URLPattern s = Normal url ->
  URLPattern_test url (req_url req) = true ->
  exists ctx,
    handler_context url req = Normal ctx /\
    route (snd (add this (req_method req) (VString s) handler)) req =
      match call handler ctx with
      | Normal response => Normal response
      | Throw _ => Normal (status_only 500)
      end.
Proof.
  intros Hget Hinner Hs Hnew Htest.
  destruct (handler_context_normal url req Htest) as [ctx Hctx].
  exists ctx. split; [assumption|].
  rewrite (route_after_add_same_method _ _ _ _ _ _ Hs Hget eq_refl).
  rewrite (route_entries_set_fresh_match _ _ _ _ _ _ Hinner Hnew Htest).
  now rewrite (route_entries_match _ _ _ _ _ _ _ Hnew Htest Hctx).
Qed.

Lemma register_then_dispatch_witness :
  run (registered (get (registered (get new_Router
         (VString "/test") (respond "ok")))
         (VString "/test/:id") greet_id))
      (GET "http://localhost/test/123") =
    Normal (text_response "test, 123!") /\
  run (registered (get new_Router (VString "/test") (NotCallable VNull)))
      (GET "http://localhost/test") =
    Normal (status_only 500).
Proof.
  split.
  - destruct (register_then_dispatch (H := host deno_tests)
                (registered (get new_Router (VString "/test") (respond "ok")))
                "/test/:id" greet_id [("/test", respond "ok")]
                (GET "http://localhost/test/123") "/test/:id")
      as (ctx & Hctx & Hroute);
      [reflexivity | repeat constructor | discriminate
      | reflexivity | reflexivity |].
    injection Hctx as <-. exact Hroute.
  - destruct (register_then_dispatch (H := host deno_tests)
                new_Router "/test" (NotCallable VNull) []
                (GET "http://localhost/test") "/test")
      as (ctx & _ & Hroute);
      [reflexivity | constructor | discriminate
      | reflexivity | reflexivity |].
    exact Hroute.
Defined.

(** ** Static files *)

(** X11.  When the file at the captured path opens, the handler of [static]
    answers 200 with the file as body; the answer carries the header
    [content-type: text/javascript], and no other, exactly when the path is
    some text followed by [.js], and carries no header at all otherwise. *)
Theorem static_content_type `{Host} (foldername : string) (ctx : Ctx)
    (groups : Groups) (path : string) (file : FsFile) :
  params_pathname (ctx_params ctx) = Some groups ->
  Dict_get groups "path" = Some (Some path) ->
  Deno_open ("./" ++ foldername ++ "/" ++ path)%string = Normal file ->
  exists response,
    call (static_handler foldername) ctx = Normal response /\
    res_status response = 200 /\
    res_body response = BodyStream (readable file) /\
    ((exists stem, path = (stem ++ ".js")%string) ->
     res_headers response = [("content-type", "text/javascript")]) /\
    (~ (exists stem, path = (stem ++ ".js")%string) ->
     res_headers response = []).
Proof.
  intros Hgroups Hpath Hopen.
  unfold static_handler, call, bind, try_catch.
  rewrite Hgroups, Hpath. cbv beta iota. rewrite Hopen.
  eexists. split; [reflexivity|].
  destruct (String_endsWith path ".js") eqn:Hjs; cbn [new_Response res_status
    res_body res_headers]; repeat split; try reflexivity.
  - intros Hnot. apply String_endsWith_spec in Hjs. contradiction.
  - intros Hstem. apply String_endsWith_spec in Hstem. congruence.
Qed.

Lemma static_content_type_witness :
  let served groups :=
    call (static_handler (H := host
            {| rejected := []; results := []; json := [];
               files := [("./static/app.js", [Byte.x2f]);
                         ("./static/js", [Byte.x2a])] |}) "static")
         {| ctx_req := GET "http://localhost/";
            ctx_params := {| params_pathname := Some groups;
                             params_search := None |};
            ctx_body := VNull |} in
  served [("path", Some "app.js"%string)] =
    Normal {| res_body := BodyStream [Byte.x2f]; res_status := 200;
              res_headers := [("content-type", "text/javascript")] |} /\
  served [("path", Some "js"%string)] =
    Normal {| res_body := BodyStream [Byte.x2a]; res_status := 200;
              res_headers := [] |}.
Proof.
  intros served. split.
  - destruct (static_content_type
                (H := host {| rejected := []; results := []; json := [];
                              files := [("./static/app.js", [Byte.x2f]);
                                        ("./static/js", [Byte.x2a])] |})
                "static"
                {| ctx_req := GET "http://localhost/";
                   ctx_params :=
                     {| params_pathname := Some [("path", Some "app.js"%string)];
                        params_search := None |};
                   ctx_body := VNull |}
                [("path", Some "app.js"%string)] "app.js"
                {| readable := [Byte.x2f] |}
                eq_refl eq_refl eq_refl)
      as ([body status headers] & Hcall & Hstatus & Hbody & Hjs & _).
    simpl in Hstatus, Hbody, Hjs. subst status body.
    rewrite Hjs in Hcall by now exists "app"%string.
    exact Hcall.
  - destruct (static_content_type
                (H := host {| rejected := []; results := []; json := [];
                              files := [("./static/app.js", [Byte.x2f]);
                                        ("./static/js", [Byte.x2a])] |})
                "static"
                {| ctx_req := GET "http://localhost/";
                   ctx_params :=
                     {| params_pathname := Some [("path", Some "js"%string)];
                        params_search := None |};
                   ctx_body := VNull |}
                [("path", Some "js"%string)] "js" {| readable := [Byte.x2a] |}
                eq_refl eq_refl eq_refl)
      as ([body status headers] & Hcall & Hstatus & Hbody & _ & Hplain).
    simpl in Hstatus, Hbody, Hplain. subst status body.
    rewrite Hplain in Hcall; [exact Hcall|].
    intros [stem Hstem].
    destruct stem as [|c [|c' [|c'' stem]]]; discriminate Hstem.
Defined.

(** X12.  When the handler of [static] is given no [params.pathname], or one
    without the member [path], or one whose [path] is [undefined], it answers
    404 with body [Not Found], whether or not a file could be opened. *)
Theorem static_without_path `{Host} (foldername : string) (ctx : Ctx) :
  params_pathname (ctx_params ctx) = None \/
  (exists groups,
      params_pathname (ctx_params ctx) = Some groups /\
      (Dict_get groups "path" = None \/
       Dict_get groups "path" = Some None)) ->
  call (static_handler foldername) ctx =
  Normal {| res_body := BodyText "Not Found";
            res_status := 404;
            res_headers := [] |}.
Proof.
  unfold static_handler, call, bind, try_catch.
  intros [Hnone|(groups & Hgroups & [Hpath|Hpath])].
  - now rewrite Hnone.
  - rewrite Hgroups, Hpath. cbv beta iota. now destruct (Deno_open _).
  - rewrite Hgroups, Hpath. cbv beta iota. now destruct (Deno_open _).
Qed.

Lemma static_without_path_witness :
  call (static_handler
          (H := host {| rejected := []; results := []; json := [];
                        files := [("./static/undefined", [Byte.x2a])] |})
          "static")
       {| ctx_req := GET "http://localhost/static";
          ctx_params := {| params_pathname := Some [("0", Some "static")];
                           params_search := None |};
          ctx_body := VNull |} =
  Normal {| res_body := BodyText "Not Found";
            res_status := 404;
            res_headers := [] |}.
Proof.
  apply static_without_path. right.
  exists [("0", Some "static"%string)]. split; [reflexivity|]. now left.
Defined.

(** X13.  After [static], on a router that had no match for a GET request:
    if the static pattern matches the URL and binds [path], the answer to
    the request is the file at that path under the directory (with the
    JavaScript content type for a path ending in [.js]), or 404 with body
    [Not Found] when it cannot be opened. *)
Theorem route_static `{Host} (this : Router)
    (pathname foldername : option string) (inner : Map Handler)
    (req : Request) (url : URLPattern) (result : URLPatternResult)
    (path : string) :
  let mount := match pathname with Some p => p | None => "/static" end in
  let folder := match foldername with Some f => f | None => "static" end in
  req_method req = "GET"%string ->
  Map_get (routes this) "GET" = Some inner ->
  Forall (skipped req) inner ->
  new_URLPattern (mount ++ "/:path*")%string = Normal url ->
  URLPattern_exec url (req_url req) = Some result ->
  Dict_get (comp_groups (result_pathname result)) "path" = Some (Some path) ->
  route (snd (static this pathname foldername)) req =
  Normal (static_response folder path).
Proof.
  intros mount folder Hmethod Hget Hinner Hnew Hexec Hpath.
  assert (Htest : URLPattern_test url (req_url req) = true)
    by (unfold URLPattern_test; now rewrite Hexec).
  assert (Hs : (mount ++ "/:path*")%string <> EmptyString)
    by (destruct mount; discriminate).
  destruct (handler_context_normal url req Htest) as [ctx Hctx].
  unfold static. fold mount folder.
  rewrite <- Hmethod in Hget.
  rewrite <- Hmethod.
  rewrite (route_after_add_same_method _ _ _ _ _ _ Hs Hget eq_refl).
  rewrite (route_entries_set_fresh_match _ _ _ _ _ _ Hinner Hnew Htest).
  rewrite (route_entries_match _ _ _ _ _ _ _ Hnew Htest Hctx).
  pose proof (handler_context_params _ _ _ Hctx) as Hparams.
  rewrite (parseParams_result _ _ _ Hexec) in Hparams.
  injection Hparams as Hparams.
  unfold static_handler, call, bind, try_catch, static_response.
  rewrite <- Hparams. cbn [params_pathname].
  destruct (comp_groups (result_pathname result)) as [|g groups] eqn:Hgroups;
    [discriminate|].
  cbn [present]. rewrite Hpath. cbv beta iota.
  destruct (Deno_open _); [|reflexivity].
  now destruct (String_endsWith path ".js").
Qed.

Lemma route_static_witness :
  run (registered (static (H := host deno_tests)
         (registered (get new_Router (VString "/test") (respond "ok")))
         None None))
      (GET "http://localhost/static/app.js") =
    Normal {| res_body := BodyStream [Byte.x2f; Byte.x2f];
              res_status := 200;
              res_headers := [("content-type", "text/javascript")] |} /\
  run (registered (static (H := host deno_tests) new_Router None None))
      (GET "http://localhost/static/missing.css") =
    Normal {| res_body := BodyText "Not Found";
              res_status := 404;
              res_headers := [] |}.
Proof.
  split.
  - apply (route_static (H := host deno_tests)
             (registered (get new_Router (VString "/test") (respond "ok")))
             None None [("/test", respond "ok")]
             (GET "http://localhost/static/app.js") "/static/:path*"
             (pathname_match "/static/app.js" [("path", Some "app.js"%string)])
             "app.js"); try reflexivity.
    repeat constructor.
  - apply (route_static (H := host deno_tests) new_Router None None []
             (GET "http://localhost/static/missing.css") "/static/:path*"
             (pathname_match "/static/missing.css"
                [("path", Some "missing.css"%string)])
             "missing.css"); try reflexivity.
    constructor.
Defined.

(** ** What registration and dispatch never do *)

Module NeverFacts.

Lemma add_only_appends this method pathname handler method' inner :
  Map_get (routes this) method' = Some inner ->
  exists inner' suffix,
    Map_get (routes (snd (add this method pathname handler))) method' =
      Some inner' /\
    Map_keys inner' = Map_keys inner ++ suffix.
Proof.
  intros Hget.
  destruct (string_dec method' method) as [->|Hne].
  - unfold add. destruct pathname as [| | | |s| |];
      try (exists inner, []; split; [assumption|now rewrite app_nil_r]).
    destruct (String.eqb s EmptyString);
      [exists inner, []; split; [assumption|now rewrite app_nil_r]|].
    rewrite Hget. cbn [snd routes]. rewrite Map_get_set_same.
    destruct (in_dec string_dec s (Map_keys inner)) as [Hin|Hnin].
    + exists (Map_set inner s handler), []. split; [reflexivity|].
      rewrite app_nil_r. now apply Map_keys_set_present.
    + exists (Map_set inner s handler), [s]. split; [reflexivity|].
      now apply Map_keys_set_absent.
  - exists inner, []. rewrite add_other_methods by assumption.
    split; [assumption|now rewrite app_nil_r].
Qed.

Section WithHost.

Context `{Host}.

Lemma perform_only_appends this c method inner :
  Map_get (routes this) method = Some inner ->
  exists inner' suffix,
    Map_get (routes (snd (perform this c))) method = Some inner' /\
    Map_keys inner' = Map_keys inner ++ suffix.
Proof.
  destruct c; apply add_only_appends.
Qed.

(** After a match, the loop ends with the bodyless 500 or with what a
    handler returned. *)
Lemma route_entries_matched entries req pathname handler url :
  Forall compiles entries ->
  In (pathname, handler) entries ->
  new_URLPattern pathname = Normal url ->
  URLPattern_test url (req_url req) = true ->
  forall status,
  exists response,
    route_entries entries req status = Normal response /\
    (response = status_only 500 \/
     exists p h ctx, In (p, h) entries /\ call h ctx = Normal response).
Proof.
  intros Hcompile Hin Hnew Htest.
  induction Hcompile as [|[p0 h0] rest [u0 Hnew0] Hrest IH]; [destruct Hin|].
  intros status. simpl in Hnew0.
  destruct (URLPattern_test u0 (req_url req)) eqn:Htest0.
  - destruct (handler_context_normal u0 req Htest0) as [ctx Hctx].
    rewrite (route_entries_match _ _ _ _ _ _ _ Hnew0 Htest0 Hctx).
    destruct (call h0 ctx) as [response|e] eqn:Hcall.
    + exists response. split; [reflexivity|]. right.
      exists p0, h0, ctx. split; [now left|assumption].
    + destruct (route_entries_completes rest Hrest (ctx_req ctx) 500)
        as (response & Hrun & [Hr|[Hr|(p & h & c & Hin' & Hc)]]);
        exists response; (split; [assumption|]); try now left.
      right. exists p, h, c. split; [now right|assumption].
  - rewrite route_entries_skip
      by (unfold skipped, pattern_test; simpl;
          rewrite Hnew0; simpl; now rewrite Htest0).
    destruct Hin as [Heq|Hin].
    + injection Heq as -> ->. congruence.
    + destruct (IH Hin status)
        as (response & Hrun & [Hr|(p & h & c & Hin' & Hc)]);
        exists response; (split; [assumption|]); [now left|].
      right. exists p, h, c. split; [now right|assumption].
Qed.

End WithHost.

End NeverFacts.

Import NeverFacts.

(** X14.  When the patterns of the request's method are all templates that
    [URLPattern] accepts and one of them matches the URL, the dispatch never
    falls back to its own 404: the answer is the bodyless 500 or the
    response that a handler of that method returned. *)
Theorem route_matched_is_not_404 `{Host} (this : Router) (req : Request)
    (entries : Map Handler) (pathname : string) (handler : Handler)
    (url : URLPattern) :
  Map_get (routes this) (req_method req) = Some entries ->
  Forall compiles entries ->
  In (pathname, handler) entries ->
  new_URLPattern pathname = Normal url ->
  URLPattern_test url (req_url req) = true ->
  exists response,
    route this req = Normal response /\
    (response = status_only 500 \/
     exists p h ctx, In (p, h) entries /\ call h ctx = Normal response).
Proof.
  intros Hget Hcompile Hin Hnew Htest.
  rewrite (route_supported _ _ _ Hget).
  now apply route_entries_matched with pathname handler url.
Qed.

Lemma route_matched_is_not_404_witness :
  exists response,
    run failing_twice (GET "http://localhost/test") = Normal response /\
    (response = status_only 500 \/
     exists p h ctx,
       In (p, h) [("/test", throwing); ("/:any", NotCallable (VNumber 42))] /\
       call h ctx = Normal response).
Proof.
  apply (route_matched_is_not_404 (H := host deno_tests) failing_twice
           (GET "http://localhost/test")
           [("/test", throwing); ("/:any", NotCallable (VNumber 42))]
           "/:any" (NotCallable (VNumber 42)) "/:any").
  - reflexivity.
  - repeat constructor; eexists; reflexivity.
  - right. now left.
  - reflexivity.
  - reflexivity.
Defined.

(** X15.  No call of the registration methods removes or moves a route:
    after any further calls, the patterns that a method's map held are
    still there, in the same order and ahead of the ones that came after. *)
Theorem registrations_only_append `{Host} (calls : list Call) (this : Router)
    (method : string) (inner : Map Handler) :
  Map_get (routes this) method = Some inner ->
  exists inner' suffix,
    Map_get (routes (perform_all this calls)) method = Some inner' /\
    Map_keys inner' = Map_keys inner ++ suffix.
Proof.
  revert this inner.
  induction calls as [|c rest IH]; intros this inner Hget; simpl.
  - exists inner, []. split; [assumption|now rewrite app_nil_r].
  - destruct (perform_only_appends this c method inner Hget)
      as (inner1 & suffix1 & Hget1 & Hkeys1).
    destruct (IH _ _ Hget1) as (inner2 & suffix2 & Hget2 & Hkeys2).
    exists inner2, (suffix1 ++ suffix2). split; [assumption|].
    now rewrite Hkeys2, Hkeys1, app_assoc.
Qed.

Lemma registrations_only_append_witness :
  exists inner' suffix,
    Map_get (routes (perform_all (H := host deno_tests) two_posts
                       [CallPost (VString "/b") throwing;
                        CallStatic None None;
                        CallPost (VString EmptyString) throwing;
                        CallPost (VString "/c") throwing]))
            "POST" = Some inner' /\
    Map_keys inner' = ["/a"; "/b"]%string ++ suffix.
Proof.
  apply (registrations_only_append (H := host deno_tests) _ two_posts "POST"
           [("/a", respond "a"); ("/b", respond "b")]).
  reflexivity.
Defined.
